(** * vtki.filters: the dataset filter layer over the VTK kernel

    A shallow embedding of [vtki/filters.py].  The module is glue: each
    filter normalises its parameters, configures one VTK algorithm, runs it
    and wraps the output.  The embedding keeps that shape:

    - Python floats are the type [float]: a NaN or an exact rational.
      Arithmetic is exact (no rounding, no infinities); comparisons with
      NaN are false, as in Python.
    - Exceptions are values of [exn]; fallible code lives in the error
      monad [result].
    - The VTK algorithms are an interface, [VtkKernel]: the filters are
      defined over any implementation of it.
    - Helpers of the package that live outside [filters.py] ([wrap],
      [get_scalar], [is_inside_bounds], the [Dataset] properties,
      [MultiBlock]) are modelled from the specification and marked so. *)

From Stdlib Require Import QArith Lqa ZArith Lia Ascii String DecimalString.
From stdpp Require Import gmap strings list.

Set Default Proof Using "Type".

(* ================================================================== *)
(** ** Python floats *)
(* ================================================================== *)

Inductive float : Type :=
| NaN
| Fin (q : Q).

Definition Qlt_bool (x y : Q) : bool := negb (Qle_bool y x).

Module Float.

Definition of_Z (z : Z) : float := Fin (inject_Z z).
Definition of_nat (n : nat) : float := Fin (inject_Z (Z.of_nat n)).

Definition lift2 (f : Q -> Q -> Q) (x y : float) : float :=
  match x, y with
  | Fin a, Fin b => Fin (f a b)
  | _, _ => NaN
  end.

Definition add := lift2 Qplus.
Definition sub := lift2 Qminus.
Definition mul := lift2 Qmult.

(** True division.  Every divisor in [filters.py] and in [linspace] is a
    non-zero constant or is guarded; a zero divisor yields NaN here. *)
Definition div (x y : float) : float :=
  match x, y with
  | Fin a, Fin b => if Qeq_bool b 0 then NaN else Fin (a / b)
  | _, _ => NaN
  end.

Definition cmp (f : Q -> Q -> bool) (x y : float) : bool :=
  match x, y with
  | Fin a, Fin b => f a b
  | _, _ => false
  end.

Definition le := cmp Qle_bool.
Definition lt := cmp Qlt_bool.
Definition ge (x y : float) := le y x.
Definition gt (x y : float) := lt y x.

End Float.

Declare Scope float_scope.
Delimit Scope float_scope with float.
Bind Scope float_scope with float.
Infix "+" := Float.add : float_scope.
Infix "-" := Float.sub : float_scope.
Infix "*" := Float.mul : float_scope.
Infix "/" := Float.div : float_scope.
Infix "<=?" := Float.le : float_scope.
Infix "<?" := Float.lt : float_scope.
Infix ">=?" := Float.ge : float_scope.
Infix ">?" := Float.gt : float_scope.

(* ================================================================== *)
(** ** Exceptions and the error monad *)
(* ================================================================== *)

(** One constructor per [raise] site of [filters.py], plus the built-in
    exceptions that indexing and look-ups raise. *)
Inductive exn : Type :=
| KeyError (key : string)            (* NORMALS[name] on an unknown name *)
| TypeError                          (* subscripting or scaling a non-sequence *)
| IndexError                         (* sequence index out of range *)
| ValueError                         (* reduction of a zero-size array *)
| RecursionError                     (* call depth exhausted *)
| AttributeError                     (* method call on None *)
| SliceOutsideBounds                 (* AssertionError('Slice is outside data bounds.') *)
| AxisNotUnderstood (axis : string)  (* RuntimeError('Axis ({}) not understood') *)
| NoArraysToThreshold                (* AssertionError('No arrays present to threshold.') *)
| BadValueRange (value : list float) (* AssertionError('Value range must be length ...') *)
| PercentOutOfRange (percent : float)(* RuntimeError('Percentage ({}) is out of range (0, 1).') *)
| PercentTooSmall (percent : float)  (* RuntimeError('Percentage ({}) is too close to zero or negative.') *)
| ContourNoScalarData                (* AssertionError('Input dataset for the contour filter must have scalar data.') *)
| ContourNotPointData (scalars : option string)
                                     (* AssertionError('Contour filter only works on Point data. ...') *)
| IsosurfacesNotUnderstood           (* RuntimeError('isosurfaces not understood.') *)
| ScalarRangeLength                  (* assert len(scalar_range) == 2 *)
| ScalarRangeNotUnderstood.          (* RuntimeError('scalar_range argument ({}) not understood.') *)

(** The error taxonomy of the specification. *)
Inductive error_kind : Type :=
| invalid_argument
| bounds_violation
| missing_data
| out_of_range
| interpreter_error.

Definition kind_of (e : exn) : error_kind :=
  match e with
  | KeyError _ | AxisNotUnderstood _ | BadValueRange _
  | IsosurfacesNotUnderstood | ScalarRangeLength | ScalarRangeNotUnderstood =>
      invalid_argument
  | SliceOutsideBounds => bounds_violation
  | NoArraysToThreshold | ContourNoScalarData | ContourNotPointData _ =>
      missing_data
  | PercentOutOfRange _ | PercentTooSmall _ => out_of_range
  | TypeError | IndexError | ValueError | RecursionError | AttributeError =>
      interpreter_error
  end.

Inductive result (A : Type) : Type :=
| Ok (a : A)
| Err (e : exn).
Arguments Ok {A} a.
Arguments Err {A} e.

#[global] Instance result_ret : MRet result := fun _ a => Ok a.
#[global] Instance result_bind : MBind result := fun _ _ k m =>
  match m with
  | Ok a => k a
  | Err e => Err e
  end.

Definition is_ok {A : Type} (r : result A) : bool :=
  match r with Ok _ => true | Err _ => false end.

Definition fails {A : Type} (r : result A) : Prop := exists e, r = Err e.
Definition fails_with {A : Type} (k : error_kind) (r : result A) : Prop :=
  exists e, r = Err e /\ kind_of e = k.

(* ================================================================== *)
(** ** Python values that reach the filters *)
(* ================================================================== *)

(** The [normal] and [axis] parameters are dynamically typed: a string, a
    sequence of numbers, or an integer. *)
Inductive pyval : Type :=
| PyStr (s : string)
| PySeq (v : list float)
| PyInt (k : Z).

(** What subscripting such an argument yields: a number of a sequence or
    a character of a string. *)
Inductive pyitem : Type :=
| ItemFloat (x : float)
| ItemChar (c : ascii).

(** [seq[i]] for a Python list or tuple: negative indices count from the
    end, anything out of range raises IndexError. *)
Definition py_getitem {A : Type} (l : list A) (i : Z) : result A :=
  let len := Z.of_nat (length l) in
  let j := if (i <? 0)%Z then (i + len)%Z else i in
  if (j <? 0)%Z then Err IndexError
  else match l !! Z.to_nat j with
       | Some a => Ok a
       | None => Err IndexError
       end.

(** [seq[i] = x] for a Python list. *)
Definition py_setitem {A : Type} (l : list A) (i : Z) (x : A) : result (list A) :=
  let len := Z.of_nat (length l) in
  let j := if (i <? 0)%Z then (i + len)%Z else i in
  if (j <? 0)%Z then Err IndexError
  else if (j <? len)%Z then Ok (<[Z.to_nat j := x]> l)
  else Err IndexError.

(** [str.lower], on ASCII. *)
Definition lower_ascii (c : ascii) : ascii :=
  let n := nat_of_ascii c in
  if (65 <=? n)%nat && (n <=? 90)%nat then ascii_of_nat (n + 32) else c.

Fixpoint lower (s : string) : string :=
  match s with
  | EmptyString => EmptyString
  | String c s' => String (lower_ascii c) (lower s')
  end.

(* ================================================================== *)
(** ** Module constants *)
(* ================================================================== *)

Definition NORMALS : gmap string (list Z) :=
  list_to_map
    [ ("x",  [ 1;  0;  0]);
      ("y",  [ 0;  1;  0]);
      ("z",  [ 0;  0;  1]);
      ("-x", [-1;  0;  0]);
      ("-y", [ 0; -1;  0]);
      ("-z", [ 0;  0; -1]) ]%Z.

(** The local table [axes] of [slice_along_axis]. *)
Definition axes : gmap string Z :=
  list_to_map [ ("x", 0); ("y", 1); ("z", 2) ]%Z.

Arguments NORMALS : simpl never.
Arguments axes : simpl never.

(* ================================================================== *)
(** ** numpy *)
(* ================================================================== *)

Definition array := list float.

Module np.

Definition fmin (x y : float) : float :=
  match x, y with
  | NaN, _ => y
  | _, NaN => x
  | Fin a, Fin b => if Qle_bool a b then x else y
  end.

Definition fmax (x y : float) : float :=
  match x, y with
  | NaN, _ => y
  | _, NaN => x
  | Fin a, Fin b => if Qle_bool a b then y else x
  end.

(** [np.nanmin]: the minimum ignoring NaNs; NaN when every entry is NaN;
    ValueError on a zero-size array. *)
Definition nanmin (arr : array) : result float :=
  match arr with
  | [] => Err ValueError
  | x :: arr' => Ok (foldl fmin x arr')
  end.

Definition nanmax (arr : array) : result float :=
  match arr with
  | [] => Err ValueError
  | x :: arr' => Ok (foldl fmax x arr')
  end.

(** [np.linspace(start, stop, num)] with the default [endpoint=True]:
    [num] samples [start + i * step], [step = (stop - start) / (num - 1)],
    the last one set to [stop]. *)
Definition linspace (start stop : float) (num : nat) : list float :=
  match num with
  | O => []
  | S O => [start]
  | S div =>
      let step := ((stop - start) / Float.of_nat div)%float in
      ((fun i => (start + Float.of_nat i * step)%float) <$> seq 0 div) ++ [stop]
  end.

End np.

(* ================================================================== *)
(** ** VTK data objects and the algorithm interface *)
(* ================================================================== *)

(** Data association of an array: [POINT_DATA_FIELD = 0],
    [CELL_DATA_FIELD = 1]. *)
Inductive field : Type :=
| POINT_DATA_FIELD
| CELL_DATA_FIELD.

#[global] Instance field_eq_dec : EqDecision field.
Proof. solve_decision. Defined.

(** What the filter layer reads of a VTK data object: its bounds
    [xmin, xmax, ymin, ymax, zmin, zmax], its named point and cell arrays,
    and the texture coordinates of its point data. *)
Record vtkDataObject : Type := {
  GetBounds : list float;
  GetPointData : list (string * array);
  GetCellData : list (string * array);
  GetTCoords : option (string * array);
}.

Record vtkPlane : Type := {
  GetNormal : float * float * float;
  GetOrigin : float * float * float;
}.

Inductive threshold_criterion : Type :=
| ThresholdBetween (lower upper : float)
| ThresholdByLower (value : float)
| ThresholdByUpper (value : float).

Inductive contour_values : Type :=
| GenerateValues (n : Z) (rng : float * float)
| SetValues (values : list float).

(** The algorithms of the kernel, each taken as the function from its
    input and configuration to its output after [Update()]. *)
Class VtkKernel : Type := {
  vtkClipDataSet : vtkDataObject -> vtkPlane -> bool -> vtkDataObject;
  vtkCutter : vtkDataObject -> vtkPlane -> bool -> vtkDataObject;
  vtkThreshold :
    vtkDataObject -> field -> option string -> bool -> threshold_criterion ->
    vtkDataObject;
  vtkAppendFilter : list vtkDataObject -> vtkDataObject;
  vtkOutlineFilter : vtkDataObject -> bool -> vtkDataObject;
  vtkOutlineCornerFilter : vtkDataObject -> float -> vtkDataObject;
  vtkGeometryFilter : vtkDataObject -> vtkDataObject;
  vtkExtractEdges : vtkDataObject -> vtkDataObject;
  vtkElevationFilter :
    vtkDataObject -> float * float -> float * float * float ->
    float * float * float -> vtkDataObject;
  vtkContourFilter :
    vtkDataObject -> bool -> bool -> bool -> field -> option string ->
    contour_values -> vtkDataObject;
  vtkTextureMapToPlane :
    vtkDataObject -> list float -> list float -> list float -> vtkDataObject;
  (* attribute methods of point data, used by the in-place texture map *)
  SetTCoords : vtkDataObject -> option (string * array) -> vtkDataObject;
  AddArray : vtkDataObject -> option (string * array) -> vtkDataObject;
}.

(* ================================================================== *)
(** ** The dataset abstraction (vtki.common, vtki.utilities) *)
(* ================================================================== *)

(** A wrapped dataset: the VTK object and vtki's bookkeeping. *)
Record Dataset : Type := {
  vtk_object : vtkDataObject;
  _active_scalar_info : field * option string;
}.

(** An algorithm after [Update()]: the data object on input port 0,
    connection 0, and the data object on output port 0. *)
Record vtkAlgorithm : Type := {
  GetInputDataObject : Dataset;
  GetOutputDataObject : vtkDataObject;
}.

(** Modelled from the spec: [Dataset.bounds], the six floats min/max per
    axis. *)
Definition bounds (dataset : Dataset) : list float :=
  GetBounds (vtk_object dataset).

Fixpoint midpoints (b : list float) : list float :=
  match b with
  | lo :: hi :: b' => ((lo + hi) / Fin 2)%float :: midpoints b'
  | _ => []
  end.

(** Modelled from the spec: [Dataset.center], the geometric center of the
    dataset, three floats. *)
Definition center (dataset : Dataset) : list float :=
  midpoints (bounds dataset).

(** Modelled from the spec: [Dataset.active_scalar_info], the active
    scalar field reference, a (locality, name) pair. *)
Definition active_scalar_info (dataset : Dataset) : field * option string :=
  _active_scalar_info dataset.

(** Modelled from the spec: [Dataset.n_scalars], the number of scalar
    arrays present on the dataset, point- and cell-associated. *)
Definition n_scalars (dataset : Dataset) : nat :=
  length (GetPointData (vtk_object dataset)) +
  length (GetCellData (vtk_object dataset)).

Fixpoint find_array (name : string) (arrays : list (string * array)) : option array :=
  match arrays with
  | [] => None
  | (k, a) :: arrays' => if String.eqb k name then Some a else find_array name arrays'
  end.

(** Modelled from the spec: [get_scalar(mesh, name, preference, info=True)]
    of vtki.utilities.  A scalar array reference is a (name, locality)
    pair; the array is searched in the point and the cell data, and the
    locality preference resolves a name present in both.  [None] stands for
    the pair [(None, None)] returned when nothing is found. *)
Definition get_scalar (mesh : Dataset) (name : option string) (preference : field)
  : option (array * field) :=
  match name with
  | None => None
  | Some name =>
      match find_array name (GetPointData (vtk_object mesh)),
            find_array name (GetCellData (vtk_object mesh)) with
      | Some parr, Some carr =>
          match preference with
          | CELL_DATA_FIELD => Some (carr, CELL_DATA_FIELD)
          | POINT_DATA_FIELD => Some (parr, POINT_DATA_FIELD)
          end
      | Some parr, None => Some (parr, POINT_DATA_FIELD)
      | None, Some carr => Some (carr, CELL_DATA_FIELD)
      | None, None => None
      end
  end.

(** Modelled from the spec: [Dataset.get_data_range(arr, preference)], the
    non-NaN range of the named array (of the active scalar when no name is
    given); a NaN range when there is no such array or it is empty. *)
Definition get_data_range (dataset : Dataset) (arr : option string) (preference : field)
  : float * float :=
  let name := match arr with
              | None => snd (active_scalar_info dataset)
              | Some _ => arr
              end in
  match get_scalar dataset name preference with
  | Some (x :: a, _) => (foldl np.fmin x a, foldl np.fmax x a)
  | _ => (NaN, NaN)
  end.

(** Modelled from the spec: [is_inside_bounds(point, bounds)] of
    vtki.utilities: the point lies within the bounding box, each coordinate
    between the minimum and the maximum of its axis, bounds included. *)
Fixpoint is_inside_bounds (point bounds : list float) : bool :=
  match point, bounds with
  | [], _ => true
  | p :: point', lower :: upper :: bounds' =>
      (lower <=? p)%float && (p <=? upper)%float && is_inside_bounds point' bounds'
  | _ :: _, _ => false
  end.

(** Modelled from the spec: [wrap(vtkdataset)] of vtki.utilities converts a
    raw kernel output handle into the dataset abstraction.  The new wrapper
    starts with no active scalar designated. *)
Definition wrap (vtkdataset : vtkDataObject) : Dataset :=
  {| vtk_object := vtkdataset;
     _active_scalar_info := (POINT_DATA_FIELD, None) |}.

(** Modelled from the spec: [Dataset.copy_meta_from(ido)] copies the
    bookkeeping metadata (the active scalar designation) of [ido]. *)
Definition copy_meta_from (self ido : Dataset) : Dataset :=
  {| vtk_object := vtk_object self;
     _active_scalar_info := active_scalar_info ido |}.

(** Modelled from the spec: [Dataset.set_active_scalar(name, preference)]
    marks the named array as the dataset's active scalar. *)
Definition set_active_scalar (self : Dataset) (name : string) (preference : field)
  : Dataset :=
  let fld := match get_scalar self (Some name) preference with
             | Some (_, f) => f
             | None => preference
             end in
  {| vtk_object := vtk_object self;
     _active_scalar_info := (fld, Some name) |}.

(** Modelled from the spec: [vtki.MultiBlock], an indexable collection of
    (index, label, Dataset) triples with unique indices;
    [output[i, name] = data] stores the triple at index [i]. *)
Abbreviation MultiBlock := (gmap nat (string * Dataset)).

Definition MultiBlock_setitem (output : MultiBlock) (index : nat) (name : string)
    (data : Dataset) : MultiBlock :=
  <[index := (name, data)]> output.

(* ================================================================== *)
(** ** filters.py *)
(* ================================================================== *)

(** ['slice%.2d' % i]: the decimal digits of [i], zero-padded to a width
    of at least two. *)
Definition format_2d (i : nat) : string :=
  let digits := NilEmpty.string_of_uint (Nat.to_uint i) in
  if (String.length digits <? 2)%nat then "0" +:+ digits else digits.

(** Arguments whose Python type varies. *)
Inductive threshold_value : Type :=
| ValueNone
| ValueScalar (v : float)
| ValueIterable (vs : list float).

Inductive percent_arg : Type :=
| PercentScalar (p : float)
| PercentIterable (ps : list float).

Inductive isosurfaces_arg : Type :=
| IsoInt (n : Z)
| IsoIterable (values : list float)
| IsoOther.

Inductive scalar_range_arg : Type :=
| RangeNone
| RangeStr (name : string)
| RangeIterable (rng : list float)
| RangeOther.

Section Filters.

Context `{K : VtkKernel}.

(** A helper to get the algorithm's output and copy input's vtki meta
    info.  The ports and the connection are 0 at every call site. *)
Definition _get_output (algorithm : vtkAlgorithm) (active_scalar : option string)
    (active_scalar_field : field) : Dataset :=
  let ido := GetInputDataObject algorithm in
  let data := wrap (GetOutputDataObject algorithm) in
  let data := copy_meta_from data ido in
  match active_scalar with
  | Some name => set_active_scalar data name active_scalar_field
  | None => data
  end.

(** [value[i]] on a dynamically typed argument: a sequence yields a
    number, a string yields a character (IndexError past its end, as for
    a sequence), an integer is not subscriptable. *)
Definition subscript (value : pyval) (i : Z) : result pyitem :=
  match value with
  | PySeq v => x ← py_getitem v i; Ok (ItemFloat x)
  | PyStr s => c ← py_getitem (list_ascii_of_string s) i; Ok (ItemChar c)
  | PyInt _ => Err TypeError
  end.

(** The setters of [vtkPlane] take numbers: a character is refused. *)
Definition as_double (x : pyitem) : result float :=
  match x with
  | ItemFloat f => Ok f
  | ItemChar _ => Err TypeError
  end.

(** The three subscripts of [normal] are evaluated, then [SetNormal] is
    called on them; then the same for [origin]. *)
Definition _generate_plane (normal : pyval) (origin : list float) : result vtkPlane :=
  n0 ← subscript normal 0;
  n1 ← subscript normal 1;
  n2 ← subscript normal 2;
  n0 ← as_double n0;
  n1 ← as_double n1;
  n2 ← as_double n2;
  o0 ← py_getitem origin 0;
  o1 ← py_getitem origin 1;
  o2 ← py_getitem origin 2;
  Ok {| GetNormal := (n0, n1, n2); GetOrigin := (o0, o1, o2) |}.

(** [if isinstance(normal, str): normal = NORMALS[normal.lower()]] *)
Definition resolve_normal (normal : pyval) : result pyval :=
  match normal with
  | PyStr s =>
      match NORMALS !! lower s with
      | Some v => Ok (PySeq (Float.of_Z <$> v))
      | None => Err (KeyError (lower s))
      end
  | _ => Ok normal
  end.

Definition clip (dataset : Dataset) (normal : pyval) (origin : option (list float))
    (invert : bool) : result Dataset :=
  normal ← resolve_normal normal;
  let origin := match origin with
                | None => center dataset
                | Some o => o
                end in
  plane ← _generate_plane normal origin;
  let alg := {| GetInputDataObject := dataset;
                GetOutputDataObject :=
                  vtkClipDataSet (vtk_object dataset) plane invert |} in
  Ok (_get_output alg None POINT_DATA_FIELD).

Definition slice (dataset : Dataset) (normal : pyval) (origin : option (list float))
    (generate_triangles : bool) : result Dataset :=
  normal ← resolve_normal normal;
  let origin := match origin with
                | None => center dataset
                | Some o => o
                end in
  if negb (is_inside_bounds origin (bounds dataset)) then Err SliceOutsideBounds
  else
    plane ← _generate_plane normal origin;
    let alg := {| GetInputDataObject := dataset;
                  GetOutputDataObject :=
                    vtkCutter (vtk_object dataset) plane generate_triangles |} in
    Ok (_get_output alg None POINT_DATA_FIELD).

Definition slice_orthogonal (dataset : Dataset) (x y z : option float)
    (generate_triangles : bool) : result MultiBlock :=
  let output : MultiBlock := ∅ in
  x ← match x with None => py_getitem (center dataset) 0 | Some x => Ok x end;
  y ← match y with None => py_getitem (center dataset) 1 | Some y => Ok y end;
  z ← match z with None => py_getitem (center dataset) 2 | Some z => Ok z end;
  yz ← slice dataset (PyStr "x") (Some [x; y; z]) generate_triangles;
  let output := MultiBlock_setitem output 0 "YZ" yz in
  xz ← slice dataset (PyStr "y") (Some [x; y; z]) generate_triangles;
  let output := MultiBlock_setitem output 1 "XZ" xz in
  xy ← slice dataset (PyStr "z") (Some [x; y; z]) generate_triangles;
  let output := MultiBlock_setitem output 2 "XY" xy in
  Ok output.

(** The body of the loop [for i in range(n)] of [slice_along_axis], over
    the remaining indices; [center] is the list mutated by
    [center[ax] = rng[i]]. *)
Fixpoint slice_along_axis_loop (dataset : Dataset) (axis : pyval) (ax : Z)
    (rng : list float) (generate_triangles : bool) (indices : list nat)
    (center : list float) (output : MultiBlock) : result MultiBlock :=
  match indices with
  | [] => Ok output
  | i :: indices' =>
      r ← py_getitem rng (Z.of_nat i);
      center ← py_setitem center ax r;
      slc ← slice dataset axis (Some center) generate_triangles;
      let output := MultiBlock_setitem output i ("slice" +:+ format_2d i) slc in
      slice_along_axis_loop dataset axis ax rng generate_triangles indices'
        center output
  end.

Definition slice_along_axis (dataset : Dataset) (n : nat) (axis : pyval)
    (tolerance : option float) (generate_triangles : bool) : result MultiBlock :=
  let output : MultiBlock := ∅ in
  ax ← match axis with
       | PyStr s =>
           match axes !! s with
           | Some ax => Ok ax
           | None => Err (AxisNotUnderstood s)
           end
       | PyInt k => Ok k
       | PySeq _ => Err TypeError
       end;
  tolerance ← match tolerance with
              | None =>
                  hi ← py_getitem (bounds dataset) (ax * 2 + 1);
                  lo ← py_getitem (bounds dataset) (ax * 2);
                  Ok ((hi - lo) * Fin 0.01)%float
              | Some t => Ok t
              end;
  lo ← py_getitem (bounds dataset) (ax * 2);
  hi ← py_getitem (bounds dataset) (ax * 2 + 1);
  let rng := np.linspace (lo + tolerance) (hi - tolerance) n in
  let center := center dataset in
  slice_along_axis_loop dataset axis ax rng generate_triangles (seq 0 n)
    center output.

(** [threshold] calls itself when an inverted range is requested; [depth]
    bounds the nesting of calls. *)
Fixpoint threshold_rec (depth : nat) (dataset : Dataset) (value : threshold_value)
    (scalars : option string) (invert continuous : bool) (preference : field)
    : result Dataset :=
  match depth with
  | O => Err RecursionError
  | S depth' =>
      (* set the scalars to threshold on *)
      let scalars := match scalars with
                     | None => snd (active_scalar_info dataset)
                     | Some _ => scalars
                     end in
      match get_scalar dataset scalars preference with
      | None => Err NoArraysToThreshold
      | Some (arr, field) =>
          match value, invert with
          | ValueIterable vs, true =>
              (* an inverted range: merge the result of two filters *)
              lo ← np.nanmin arr;
              hi ← np.nanmax arr;
              v0 ← py_getitem vs 0;
              t1 ← threshold_rec depth' dataset (ValueIterable [lo; v0]) scalars
                     false continuous preference;
              v1 ← py_getitem vs 1;
              t2 ← threshold_rec depth' dataset (ValueIterable [v1; hi]) scalars
                     false continuous preference;
              let appender :=
                {| GetInputDataObject := t1;
                   GetOutputDataObject :=
                     vtkAppendFilter [vtk_object t1; vtk_object t2] |} in
              Ok (_get_output appender None POINT_DATA_FIELD)
          | _, _ =>
              (* a standard threshold; the valid range if no value given *)
              criterion ←
                match value with
                | ValueNone =>
                    let '(dmin, dmax) :=
                      get_data_range dataset scalars CELL_DATA_FIELD in
                    Ok (ThresholdBetween dmin dmax)
                | ValueIterable vs =>
                    if negb (length vs =? 2)%nat then Err (BadValueRange vs)
                    else
                      v0 ← py_getitem vs 0;
                      v1 ← py_getitem vs 1;
                      Ok (ThresholdBetween v0 v1)
                | ValueScalar v =>
                    Ok (if invert then ThresholdByLower v else ThresholdByUpper v)
                end;
              let alg :=
                {| GetInputDataObject := dataset;
                   GetOutputDataObject :=
                     vtkThreshold (vtk_object dataset) field scalars continuous
                       criterion |} in
              Ok (_get_output alg None POINT_DATA_FIELD)
          end
      end
  end.

(** The nested calls pass [invert=False] and do not call further: two
    levels suffice (see [threshold_rec_depth]). *)
Definition threshold : Dataset -> threshold_value -> option string -> bool ->
    bool -> field -> result Dataset :=
  threshold_rec 2.

(** Make sure percent is between 0 and 1 or fix if between 0 and 100. *)
Definition _check_percent (percent : float) : result float :=
  percent ←
    (if (percent >=? Fin 1)%float then
       let percent := (percent / Fin 100)%float in
       if (percent >? Fin 1)%float then Err (PercentOutOfRange percent)
       else Ok percent
     else Ok percent);
  if (percent <? Fin 1e-10)%float then Err (PercentTooSmall percent)
  else Ok percent.

(** Gets the value from a percentage of a range. *)
Definition _get_val (percent dmin dmax : float) : result float :=
  percent ← _check_percent percent;
  Ok (dmin + percent * (dmax - dmin))%float.

Definition threshold_percent (dataset : Dataset) (percent : percent_arg)
    (scalars : option string) (invert continuous : bool) (preference : field)
    : result Dataset :=
  let tscalars := match scalars with
                  | None => snd (active_scalar_info dataset)
                  | Some _ => scalars
                  end in
  let '(dmin, dmax) := get_data_range dataset tscalars preference in
  value ←
    match percent with
    | PercentIterable ps =>
        p0 ← py_getitem ps 0;
        v0 ← _get_val p0 dmin dmax;
        p1 ← py_getitem ps 1;
        v1 ← _get_val p1 dmin dmax;
        Ok (ValueIterable [v0; v1])
    | PercentScalar p =>
        v ← _get_val p dmin dmax;
        Ok (ValueScalar v)
    end;
  threshold dataset value scalars invert continuous preference.

Definition outline (dataset : Dataset) (generate_faces : bool) : Dataset :=
  wrap (vtkOutlineFilter (vtk_object dataset) generate_faces).

Definition outline_corners (dataset : Dataset) (factor : float) : Dataset :=
  wrap (vtkOutlineCornerFilter (vtk_object dataset) factor).

Definition extract_geometry (dataset : Dataset) : Dataset :=
  _get_output {| GetInputDataObject := dataset;
                 GetOutputDataObject := vtkGeometryFilter (vtk_object dataset) |}
    None POINT_DATA_FIELD.

Definition wireframe (dataset : Dataset) : Dataset :=
  _get_output {| GetInputDataObject := dataset;
                 GetOutputDataObject := vtkExtractEdges (vtk_object dataset) |}
    None POINT_DATA_FIELD.

(** A point handed to a VTK setter that takes one point argument: a
    sequence of exactly three numbers, anything else raises TypeError. *)
Definition as_point (p : list float) : result (float * float * float) :=
  match p with
  | [x; y; z] => Ok (x, y, z)
  | _ => Err TypeError
  end.

Definition elevation (dataset : Dataset) (low_point high_point : option (list float))
    (scalar_range : scalar_range_arg) (preference : field) (set_active : bool)
    : result Dataset :=
  (* fix the projection line *)
  low_point ← match low_point with
              | None =>
                  b ← py_getitem (bounds dataset) 4;
                  py_setitem (center dataset) 2 b
              | Some p => Ok p
              end;
  high_point ← match high_point with
               | None =>
                   b ← py_getitem (bounds dataset) 5;
                   py_setitem (center dataset) 2 b
               | Some p => Ok p
               end;
  (* fix scalar_range *)
  scalar_range ←
    match scalar_range with
    | RangeNone =>
        lo ← py_getitem low_point 2;
        hi ← py_getitem high_point 2;
        Ok (lo, hi)
    | RangeStr name => Ok (get_data_range dataset (Some name) preference)
    | RangeIterable rng =>
        match rng with
        | [lo; hi] => Ok (lo, hi)
        | _ => Err ScalarRangeLength
        end
    | RangeOther => Err ScalarRangeNotUnderstood
    end;
  (* SetLowPoint and SetHighPoint take a point of exactly three values *)
  low_point ← as_point low_point;
  high_point ← as_point high_point;
  let alg :=
    {| GetInputDataObject := dataset;
       GetOutputDataObject :=
         vtkElevationFilter (vtk_object dataset) scalar_range low_point
           high_point |} in
  (* decide on updating the active scalar array *)
  let name := if negb set_active then None else Some "Elevation" in
  Ok (_get_output alg name POINT_DATA_FIELD).

Definition contour (dataset : Dataset) (isosurfaces : isosurfaces_arg)
    (scalars : option string)
    (compute_normals compute_gradients compute_scalars : bool)
    (preference : field) : result Dataset :=
  (* make sure the input has scalars to contour on *)
  if (n_scalars dataset <? 1)%nat then Err ContourNoScalarData
  else
    (* set the array to contour on *)
    let '(field, scalars) :=
      match scalars with
      | None =>
          let '(field, scalars) := active_scalar_info dataset in
          (Some field, scalars)
      | Some _ => (snd <$> get_scalar dataset scalars preference, scalars)
      end in
    match field with
    | Some POINT_DATA_FIELD =>
        values ←
          match isosurfaces with
          | IsoInt n =>
              Ok (GenerateValues n
                    (get_data_range dataset scalars CELL_DATA_FIELD))
          | IsoIterable values => Ok (SetValues values)
          | IsoOther => Err IsosurfacesNotUnderstood
          end;
        let alg :=
          {| GetInputDataObject := dataset;
             GetOutputDataObject :=
               vtkContourFilter (vtk_object dataset) compute_normals
                 compute_gradients compute_scalars POINT_DATA_FIELD scalars
                 values |} in
        Ok (_get_output alg None POINT_DATA_FIELD)
    | _ => Err (ContourNotPointData scalars)
    end.

(** Returns the input dataset as the call leaves it and the return
    value: the output when not in place, [None] when in place. *)
Definition texture_map_to_plane (dataset : Dataset)
    (origin point_u point_v : list float) (inplace : bool) (name : string)
    : result (Dataset * option Dataset) :=
  let alg :=
    {| GetInputDataObject := dataset;
       GetOutputDataObject :=
         vtkTextureMapToPlane (vtk_object dataset) origin point_u point_v |} in
  let output := _get_output alg None POINT_DATA_FIELD in
  if negb inplace then Ok (dataset, Some output)
  else
    t_coords ← match GetTCoords (vtk_object output) with
               | Some (_, a) => Ok (Some (name, a))
               | None => Err AttributeError
               end;
    let otc := GetTCoords (vtk_object dataset) in
    let d := SetTCoords (vtk_object dataset) t_coords in
    let d := AddArray d t_coords in
    (* add the old ones back at the end *)
    let d := AddArray d otc in
    Ok ({| vtk_object := d;
           _active_scalar_info := _active_scalar_info dataset |}, None).

End Filters.

(* ================================================================== *)
(** ** A small kernel and a sample dataset *)
(* ================================================================== *)

(** An implementation of the interface that is enough to run the filters
    on concrete datasets.  Geometry is reduced to the bounds and the
    arrays: a threshold keeps the entries whose scalar meets the
    criterion, an append concatenates arrays of the same name, a cut by an
    axis-aligned plane flattens the bounds onto the plane, the outlines
    carry no arrays, the other algorithms keep the data. *)
Module Sample.

Definition meets (c : threshold_criterion) (v : float) : bool :=
  match c with
  | ThresholdBetween lo hi => (lo <=? v)%float && (v <=? hi)%float
  | ThresholdByLower x => (v <=? x)%float
  | ThresholdByUpper x => (x <=? v)%float
  end.

Fixpoint keep (mask : list bool) (a : array) : array :=
  match mask, a with
  | true :: mask', x :: a' => x :: keep mask' a'
  | false :: mask', _ :: a' => keep mask' a'
  | _, _ => []
  end.

Definition keep_all (mask : list bool) (arrays : list (string * array))
  : list (string * array) :=
  (fun '(k, a) => (k, keep mask a)) <$> arrays.

Definition threshold_data (d : vtkDataObject) (fld : field) (name : option string)
    (continuous : bool) (c : threshold_criterion) : vtkDataObject :=
  let arrays := match fld with
                | POINT_DATA_FIELD => GetPointData d
                | CELL_DATA_FIELD => GetCellData d
                end in
  let mask := match name ≫= (fun n => find_array n arrays) with
              | Some a => meets c <$> a
              | None => []
              end in
  match fld with
  | POINT_DATA_FIELD =>
      {| GetBounds := GetBounds d; GetPointData := keep_all mask (GetPointData d);
         GetCellData := GetCellData d; GetTCoords := GetTCoords d |}
  | CELL_DATA_FIELD =>
      {| GetBounds := GetBounds d; GetPointData := GetPointData d;
         GetCellData := keep_all mask (GetCellData d); GetTCoords := GetTCoords d |}
  end.

Definition append_arrays (xs ys : list (string * array)) : list (string * array) :=
  (fun '(k, a) => (k, a ++ default [] (find_array k ys))) <$> xs.

Definition append_data (ds : list vtkDataObject) : vtkDataObject :=
  match ds with
  | [] => {| GetBounds := []; GetPointData := []; GetCellData := [];
             GetTCoords := None |}
  | d :: ds' =>
      foldl (fun acc d' =>
               {| GetBounds := GetBounds acc;
                  GetPointData := append_arrays (GetPointData acc) (GetPointData d');
                  GetCellData := append_arrays (GetCellData acc) (GetCellData d');
                  GetTCoords := GetTCoords acc |}) d ds'
  end.

Definition is_zero (x : float) : bool :=
  match x with
  | Fin q => Qeq_bool q 0
  | NaN => false
  end.

Definition cut_data (d : vtkDataObject) (p : vtkPlane) (triangles : bool)
  : vtkDataObject :=
  let '(n0, n1, n2) := GetNormal p in
  let '(o0, o1, o2) := GetOrigin p in
  let b :=
    match GetBounds d with
    | [x0; x1; y0; y1; z0; z1] =>
        if negb (is_zero n0) && is_zero n1 && is_zero n2
        then [o0; o0; y0; y1; z0; z1]
        else if is_zero n0 && negb (is_zero n1) && is_zero n2
        then [x0; x1; o1; o1; z0; z1]
        else if is_zero n0 && is_zero n1 && negb (is_zero n2)
        then [x0; x1; y0; y1; o2; o2]
        else GetBounds d
    | b => b
    end in
  {| GetBounds := b; GetPointData := GetPointData d;
     GetCellData := GetCellData d; GetTCoords := GetTCoords d |}.

Definition bare (d : vtkDataObject) : vtkDataObject :=
  {| GetBounds := GetBounds d; GetPointData := []; GetCellData := [];
     GetTCoords := None |}.

Definition add_array (d : vtkDataObject) (a : option (string * array))
  : vtkDataObject :=
  match a with
  | None => d
  | Some (k, v) =>
      {| GetBounds := GetBounds d;
         GetPointData :=
           filter (fun kv => negb (String.eqb (fst kv) k)) (GetPointData d)
             ++ [(k, v)];
         GetCellData := GetCellData d; GetTCoords := GetTCoords d |}
  end.

Definition kernel : VtkKernel :=
  {| vtkClipDataSet d _ _ := d;
     vtkCutter := cut_data;
     vtkThreshold := threshold_data;
     vtkAppendFilter := append_data;
     vtkOutlineFilter d _ := bare d;
     vtkOutlineCornerFilter d _ := bare d;
     vtkGeometryFilter d := d;
     vtkExtractEdges d := d;
     vtkElevationFilter d _ _ _ := d;
     vtkContourFilter d _ _ _ _ _ _ := d;
     vtkTextureMapToPlane d _ _ _ := d;
     SetTCoords d t :=
       {| GetBounds := GetBounds d; GetPointData := GetPointData d;
          GetCellData := GetCellData d; GetTCoords := t |};
     AddArray := add_array |}.

(** A box [0,10] x [0,4] x [-1,1] with a cell array spanning [0,10] and a
    point array; the cell array is the active scalar. *)
Definition box : Dataset :=
  {| vtk_object :=
       {| GetBounds := [Fin 0; Fin 10; Fin 0; Fin 4; Fin (-1); Fin 1];
          GetPointData := [("height", [Fin 0; Fin 1; Fin 2; Fin 3])];
          GetCellData := [("values", [Fin 0; Fin 2; Fin 3; Fin 5; Fin 7; Fin 10])];
          GetTCoords := None |};
     _active_scalar_info := (CELL_DATA_FIELD, Some "values") |}.

(** The same box before any array is attached. *)
Definition empty_box : Dataset :=
  {| vtk_object :=
       {| GetBounds := [Fin 0; Fin 10; Fin 0; Fin 4; Fin (-1); Fin 1];
          GetPointData := []; GetCellData := []; GetTCoords := None |};
     _active_scalar_info := (POINT_DATA_FIELD, None) |}.

End Sample.

(* ================================================================== *)
(** ** Vocabulary of the statements *)
(* ================================================================== *)

(** The documented sign/axis table of the symbolic normals. *)
Definition documented_normals : list (string * (Z * Z * Z)) :=
  [ ("x",  ( 1,  0,  0)); ("y",  ( 0,  1,  0)); ("z",  ( 0,  0,  1));
    ("-x", (-1,  0,  0)); ("-y", ( 0, -1,  0)); ("-z", ( 0,  0, -1)) ]%Z.

(** An integer triple of the table as a vector of floats. *)
Definition vec3 (v : Z * Z * Z) : float * float * float :=
  let '(a, b, c) := v in (Float.of_Z a, Float.of_Z b, Float.of_Z c).

(** The scalars a threshold works on: the given name, or the name of the
    active scalar when none is given. *)
Definition scalars_or_active (dataset : Dataset) (scalars : option string)
  : option string :=
  match scalars with
  | None => snd (active_scalar_info dataset)
  | Some _ => scalars
  end.

(** The percentage after normalisation: values of 1 and above are read as
    per cent and divided by 100. *)
Definition normalized (q : Q) : Q := if Qle_bool 1 q then q / 100 else q.

(** [np.linspace] on rationals. *)
Definition linspace_Q (start stop : Q) (num : nat) : list Q :=
  match num with
  | O => []
  | S O => [start]
  | S div =>
      let step := ((stop - start) / inject_Z (Z.of_nat div))%Q in
      ((fun i => (start + inject_Z (Z.of_nat i) * step)%Q) <$> seq 0 div) ++ [stop]
  end.

(** The spacing of [num] samples from [start] to [stop]. *)
Definition step_Q (start stop : Q) (num : nat) : Q :=
  match num with
  | O | S O => 0
  | S div => (stop - start) / inject_Z (Z.of_nat div)
  end.

(** A normal that [clip] and [slice] can turn into a plane normal: a
    symbolic name whose lowercase is in the table, or a sequence of at
    least three numbers. *)
Definition usable_normal (normal : pyval) : Prop :=
  match normal with
  | PyStr s => is_Some (NORMALS !! lower s)
  | PySeq v => 3 <= length v
  | PyInt _ => False
  end.

(** The origin a filter works with: the given one, or the center. *)
Definition origin_or_center (dataset : Dataset) (origin : option (list float))
  : list float :=
  match origin with
  | None => center dataset
  | Some o => o
  end.

(** The kernel output [out] as a dataset that carries the bookkeeping
    (the active scalar designation) of [input]. *)
Definition carrying (input : Dataset) (out : vtkDataObject) : Dataset :=
  {| vtk_object := out; _active_scalar_info := active_scalar_info input |}.

Section Vocabulary.

Context `{K : VtkKernel}.

(** The merge of two threshold results by the append filter. *)
Definition merged (t1 t2 : Dataset) : Dataset :=
  _get_output {| GetInputDataObject := t1;
                 GetOutputDataObject :=
                   vtkAppendFilter [vtk_object t1; vtk_object t2] |}
    None POINT_DATA_FIELD.

(** The output of a plain range threshold on a resolved array. *)
Definition between (dataset : Dataset) (fld : field) (name : option string)
    (continuous : bool) (lower upper : float) : Dataset :=
  _get_output {| GetInputDataObject := dataset;
                 GetOutputDataObject :=
                   vtkThreshold (vtk_object dataset) fld name continuous
                     (ThresholdBetween lower upper) |}
    None POINT_DATA_FIELD.

(** The specification of the inverted range threshold, in its words: two
    bracketing thresholds, over [array-min, value-low] and over
    [value-high, array-max], each computed by the kernel's threshold on
    the dataset itself, and their results concatenated by the kernel's
    append into one output, which carries the bookkeeping of the dataset;
    array-min and array-max are the NaN-ignoring minimum and maximum of
    the resolved array. *)
Definition union_of_bracketing_thresholds (dataset : Dataset) (v0 v1 : float)
    (scalars : option string) (continuous : bool) (preference : field)
  : result Dataset :=
  let name := scalars_or_active dataset scalars in
  match get_scalar dataset name preference with
  | None => Err NoArraysToThreshold
  | Some (arr, fld) =>
      lo ← np.nanmin arr;
      hi ← np.nanmax arr;
      let below := vtkThreshold (vtk_object dataset) fld name continuous
                     (ThresholdBetween lo v0) in
      let above := vtkThreshold (vtk_object dataset) fld name continuous
                     (ThresholdBetween v1 hi) in
      Ok (carrying dataset (vtkAppendFilter [below; above]))
  end.


End Vocabulary.

(* ================================================================== *)
(** * Properties *)
(* ================================================================== *)

(** ** Floats and the error monad *)

Lemma Qle_bool_true (x y : Q) : Qle_bool x y = true <-> (x <= y)%Q.
Proof. apply Qle_bool_iff. Qed.

Lemma Qle_bool_false (x y : Q) : Qle_bool x y = false <-> (y < x)%Q.
Proof.
  split; intros H.
  - apply Qnot_le_lt. intros Hle. apply Qle_bool_iff in Hle. congruence.
  - destruct (Qle_bool x y) eqn:E; [|reflexivity].
    apply Qle_bool_iff in E. lra.
Qed.

Lemma midpoint_between (lo hi : Q) : (lo <= hi -> lo <= (lo + hi) / 2 <= hi)%Q.
Proof. intros H. unfold Qdiv. change (/ 2)%Q with (1 # 2)%Q. lra. Qed.

Lemma bind_is_Ok {A B : Type} (m : result A) (k : A -> result B) (b : B) :
  (m ≫= k) = Ok b -> exists a, m = Ok a /\ k a = Ok b.
Proof. destruct m as [a|e]; [eauto | discriminate]. Qed.

Lemma bind_is_Err {A B : Type} (m : result A) (k : A -> result B) (e : exn) :
  (m ≫= k) = Err e -> m = Err e \/ exists a, m = Ok a /\ k a = Err e.
Proof. destruct m as [a|e']; [eauto | intros [= ->]; auto]. Qed.

(** ** Strings *)

Lemma lower_ascii_idempotent (c : ascii) : lower_ascii (lower_ascii c) = lower_ascii c.
Proof. destruct c as [[] [] [] [] [] [] [] []]; reflexivity. Qed.

Lemma lower_idempotent (s : string) : lower (lower s) = lower s.
Proof.
  induction s as [|c s IH]; [reflexivity|].
  cbn. now rewrite lower_ascii_idempotent, IH.
Qed.

(** ** The bounds test *)

Lemma is_inside_bounds_3 (o0 o1 o2 x0 x1 y0 y1 z0 z1 : Q) :
  is_inside_bounds [Fin o0; Fin o1; Fin o2]
    [Fin x0; Fin x1; Fin y0; Fin y1; Fin z0; Fin z1] = true
  <-> (x0 <= o0 <= x1 /\ y0 <= o1 <= y1 /\ z0 <= o2 <= z1)%Q.
Proof.
  cbn. rewrite !andb_true_iff, !Qle_bool_true. tauto.
Qed.

(** ** Planes *)

Lemma py_getitem_Err {A : Type} (l : list A) (i : Z) (e : exn) :
  py_getitem l i = Err e -> e = IndexError.
Proof. unfold py_getitem. repeat case_match; intros [= <-]; auto. Qed.

Lemma subscript_Err (value : pyval) (i : Z) (e : exn) :
  subscript value i = Err e -> e = TypeError \/ e = IndexError.
Proof.
  destruct value as [s|v|k]; cbn [subscript]; intros H.
  - apply bind_is_Err in H as [H | (? & _ & [=])].
    apply py_getitem_Err in H. auto.
  - apply bind_is_Err in H as [H | (? & _ & [=])].
    apply py_getitem_Err in H. auto.
  - injection H as <-. auto.
Qed.

Lemma as_double_Err (x : pyitem) (e : exn) : as_double x = Err e -> e = TypeError.
Proof. destruct x; [discriminate | now intros [= <-]]. Qed.

Lemma _generate_plane_Err (normal : pyval) (origin : list float) (e : exn) :
  _generate_plane normal origin = Err e -> e = TypeError \/ e = IndexError.
Proof.
  unfold _generate_plane. intros H.
  repeat match type of H with
         | (_ ≫= _) = Err _ =>
             apply bind_is_Err in H as [H | (? & _ & H)];
             [ first [ now apply subscript_Err in H
                     | apply as_double_Err in H; auto
                     | apply py_getitem_Err in H; auto ] | ]
         end.
  discriminate.
Qed.

Lemma resolve_normal_Err (normal : pyval) (e : exn) :
  resolve_normal normal = Err e ->
  exists s, normal = PyStr s /\ NORMALS !! lower s = None /\ e = KeyError (lower s).
Proof.
  destruct normal as [s|v|k]; unfold resolve_normal; try discriminate.
  destruct (NORMALS !! lower s) eqn:E; [discriminate|].
  intros [= <-]. eauto.
Qed.

Lemma resolve_normal_lower (s : string) :
  resolve_normal (PyStr (lower s)) = resolve_normal (PyStr s).
Proof. unfold resolve_normal. now rewrite lower_idempotent. Qed.

(** ** The table of symbolic normals *)


Lemma NORMALS_names (name : string) :
  is_Some (NORMALS !! name) <-> name ∈ documented_normals.*1.
Proof.
  rewrite <- elem_of_dom. unfold NORMALS. rewrite dom_list_to_map_L.
  rewrite elem_of_list_to_set. reflexivity.
Qed.

Lemma NORMALS_names_lowercase (name : string) :
  is_Some (NORMALS !! name) -> lower name = name.
Proof.
  rewrite NORMALS_names. cbn. rewrite !elem_of_cons, elem_of_nil.
  intros H. repeat (destruct H as [-> | H]; [reflexivity |]). destruct H.
Qed.

Section Planes.

Context `{K : VtkKernel}.

(** C6.  Each of the six axis-aligned symbolic normal names of the
    documented table is a key of [NORMALS], resolves to the vector the
    table gives, that vector has length one, and it is the normal of the
    plane that [clip] and [slice] hand to the kernel; the table has no
    other name. *)
Theorem symbolic_normals_match_table :
  Forall (fun '(name, (a, b, c)) =>
            NORMALS !! name = Some [a; b; c]
            /\ resolve_normal (PyStr name)
               = Ok (PySeq [Float.of_Z a; Float.of_Z b; Float.of_Z c])
            /\ (a * a + b * b + c * c = 1)%Z
            /\ (forall dataset o0 o1 o2 invert,
                  clip dataset (PyStr name) (Some [o0; o1; o2]) invert
                  = Ok (_get_output
                          {| GetInputDataObject := dataset;
                             GetOutputDataObject :=
                               vtkClipDataSet (vtk_object dataset)
                                 {| GetNormal := vec3 (a, b, c);
                                    GetOrigin := (o0, o1, o2) |} invert |}
                          None POINT_DATA_FIELD))
            /\ (forall dataset o0 o1 o2 triangles,
                  is_inside_bounds [o0; o1; o2] (bounds dataset) = true ->
                  slice dataset (PyStr name) (Some [o0; o1; o2]) triangles
                  = Ok (_get_output
                          {| GetInputDataObject := dataset;
                             GetOutputDataObject :=
                               vtkCutter (vtk_object dataset)
                                 {| GetNormal := vec3 (a, b, c);
                                    GetOrigin := (o0, o1, o2) |} triangles |}
                          None POINT_DATA_FIELD)))
         documented_normals
  /\ (forall name, is_Some (NORMALS !! name) <-> name ∈ documented_normals.*1).
Proof.
  split; [| apply NORMALS_names].
  repeat constructor; try reflexivity.
  all: intros dataset o0 o1 o2 triangles Hin; unfold slice;
    match goal with |- context [resolve_normal ?n] =>
      let r := eval vm_compute in (resolve_normal n) in
      change (resolve_normal n) with r end;
    cbn [mbind result_bind]; rewrite Hin; reflexivity.
Qed.

(** C10.  A symbolic normal is lowercased before the look-up: any casing
    [s] of a name of the table resolves, and [clip] and [slice] do with
    [s] exactly what they do with the lowercase name. *)
Theorem symbolic_normal_case_insensitive (dataset : Dataset) (name s : string)
    (origin : option (list float)) (flag : bool) :
  is_Some (NORMALS !! name) ->
  lower s = name ->
  is_ok (resolve_normal (PyStr s)) = true
  /\ resolve_normal (PyStr s) = resolve_normal (PyStr name)
  /\ clip dataset (PyStr s) origin flag = clip dataset (PyStr name) origin flag
  /\ slice dataset (PyStr s) origin flag = slice dataset (PyStr name) origin flag.
Proof.
  intros Hname Hs.
  assert (Hres : resolve_normal (PyStr s) = resolve_normal (PyStr name)).
  { rewrite <- Hs. symmetry. apply resolve_normal_lower. }
  split; [| split; [exact Hres | split]].
  - unfold resolve_normal. rewrite Hs.
    destruct Hname as [v ->]. reflexivity.
  - unfold clip. now rewrite Hres.
  - unfold slice. now rewrite Hres.
Qed.

(** C8.  [clip] has no bounds check.  It never raises the
    bounds-violation error; when it fails, the failure is that of the
    look-up of the normal's name (an invalid argument) or of reading the
    three components of the normal and of the origin; with a normal that
    resolves to a 3-vector and an origin of three coordinates it
    returns, wherever the origin is. *)
Theorem clip_has_no_bounds_check (dataset : Dataset) (normal : pyval)
    (origin : option (list float)) (invert : bool) :
  clip dataset normal origin invert <> Err SliceOutsideBounds
  /\ (forall e, clip dataset normal origin invert = Err e ->
        kind_of e <> bounds_violation
        /\ (resolve_normal normal = Err e
            \/ exists n, resolve_normal normal = Ok n
                 /\ _generate_plane n
                      (match origin with
                       | None => center dataset
                       | Some o => o
                       end) = Err e))
  /\ (forall n0 n1 n2 o0 o1 o2,
        resolve_normal normal = Ok (PySeq [n0; n1; n2]) ->
        origin = Some [o0; o1; o2] ->
        clip dataset normal origin invert
        = Ok (_get_output
                {| GetInputDataObject := dataset;
                   GetOutputDataObject :=
                     vtkClipDataSet (vtk_object dataset)
                       {| GetNormal := (n0, n1, n2);
                          GetOrigin := (o0, o1, o2) |} invert |}
                None POINT_DATA_FIELD)).
Proof.
  assert (Herr : forall e, clip dataset normal origin invert = Err e ->
                   resolve_normal normal = Err e
                   \/ exists n, resolve_normal normal = Ok n
                        /\ _generate_plane n
                             (match origin with
                              | None => center dataset
                              | Some o => o
                              end) = Err e).
  { intros e H. unfold clip in H.
    apply bind_is_Err in H as [H | (n & Hn & H)]; [now left | right].
    exists n. split; [exact Hn |].
    apply bind_is_Err in H as [H | (p & _ & H)]; [exact H | discriminate]. }
  assert (Hkind : forall e, clip dataset normal origin invert = Err e ->
                    kind_of e <> bounds_violation).
  { intros e H. destruct (Herr e H) as [H' | (n & _ & H')].
    - apply resolve_normal_Err in H' as (s & _ & _ & ->). discriminate.
    - apply _generate_plane_Err in H' as [-> | ->]; discriminate. }
  split; [| split].
  - intros H. now apply (Hkind _ H).
  - intros e H. split; [now apply Hkind | now apply Herr].
  - intros n0 n1 n2 o0 o1 o2 Hn ->. unfold clip. rewrite Hn. reflexivity.
Qed.

End Planes.

(** ** The bounds check of [slice] *)

Lemma center_of_bounds (dataset : Dataset) (x0 x1 y0 y1 z0 z1 : Q) :
  bounds dataset = [Fin x0; Fin x1; Fin y0; Fin y1; Fin z0; Fin z1] ->
  center dataset = [Fin ((x0 + x1) / 2); Fin ((y0 + y1) / 2); Fin ((z0 + z1) / 2)].
Proof. unfold center. intros ->. reflexivity. Qed.

Section SliceBounds.

Context `{K : VtkKernel}.

(** C2.  On a dataset with defined bounds, [slice] at an origin outside
    the bounding box fails, with the bounds-violation error as soon as the
    normal resolves; on a dataset whose bounds are ordered, the center is
    inside the box and [slice] with the origin left out, or given as the
    center, passes the check and returns the cut by the plane through the
    center. *)
Theorem slice_checks_origin_in_bounds (dataset : Dataset) (normal : pyval)
    (triangles : bool) (x0 x1 y0 y1 z0 z1 : Q) :
  bounds dataset = [Fin x0; Fin x1; Fin y0; Fin y1; Fin z0; Fin z1] ->
  (forall o0 o1 o2 : Q,
      ~ (x0 <= o0 <= x1 /\ y0 <= o1 <= y1 /\ z0 <= o2 <= z1)%Q ->
      fails (slice dataset normal (Some [Fin o0; Fin o1; Fin o2]) triangles)
      /\ (is_ok (resolve_normal normal) = true ->
          slice dataset normal (Some [Fin o0; Fin o1; Fin o2]) triangles
          = Err SliceOutsideBounds))
  /\ ((x0 <= x1)%Q -> (y0 <= y1)%Q -> (z0 <= z1)%Q ->
      forall n0 n1 n2,
        resolve_normal normal = Ok (PySeq [n0; n1; n2]) ->
        is_inside_bounds (center dataset) (bounds dataset) = true
        /\ slice dataset normal None triangles
           = Ok (_get_output
                   {| GetInputDataObject := dataset;
                      GetOutputDataObject :=
                        vtkCutter (vtk_object dataset)
                          {| GetNormal := (n0, n1, n2);
                             GetOrigin := (Fin ((x0 + x1) / 2),
                                           Fin ((y0 + y1) / 2),
                                           Fin ((z0 + z1) / 2)) |}
                          triangles |}
                   None POINT_DATA_FIELD)
        /\ slice dataset normal (Some (center dataset)) triangles
           = slice dataset normal None triangles).
Proof.
  intros Hb. split.
  - intros o0 o1 o2 Hout.
    assert (Hin : is_inside_bounds [Fin o0; Fin o1; Fin o2] (bounds dataset) = false).
    { rewrite Hb. apply not_true_is_false. now rewrite is_inside_bounds_3. }
    unfold slice, fails.
    destruct (resolve_normal normal) as [n|e] eqn:Hn; cbn [mbind result_bind].
    + rewrite Hin. cbn. split; [eauto | reflexivity].
    + split; [eauto | discriminate].
  - intros Hx Hy Hz n0 n1 n2 Hn.
    assert (Hin : is_inside_bounds (center dataset) (bounds dataset) = true).
    { rewrite (center_of_bounds _ _ _ _ _ _ _ Hb), Hb.
      apply is_inside_bounds_3. auto using midpoint_between. }
    split; [exact Hin | split].
    + unfold slice. rewrite Hn. cbn [mbind result_bind]. rewrite Hin.
      rewrite (center_of_bounds _ _ _ _ _ _ _ Hb). reflexivity.
    + reflexivity.
Qed.

End SliceBounds.

(** ** Contour *)

Section Contour.

Context `{K : VtkKernel}.

(** C7.  [contour] fails with a missing-data error on a dataset without
    any scalar array, and it fails with a missing-data error when the
    target array, the active scalar or the array resolved from the given
    name, is cell-associated. *)
Theorem contour_requires_point_scalars (dataset : Dataset)
    (isosurfaces : isosurfaces_arg) (scalars : option string)
    (compute_normals compute_gradients compute_scalars : bool)
    (preference : field) :
  let run := contour dataset isosurfaces scalars compute_normals
               compute_gradients compute_scalars preference in
  (n_scalars dataset = 0 ->
     run = Err ContourNoScalarData /\ fails_with missing_data run)
  /\ (forall name,
        scalars = None ->
        active_scalar_info dataset = (CELL_DATA_FIELD, name) ->
        fails_with missing_data run
        /\ (1 <= n_scalars dataset -> run = Err (ContourNotPointData name)))
  /\ (forall name arr,
        scalars = Some name ->
        get_scalar dataset (Some name) preference = Some (arr, CELL_DATA_FIELD) ->
        fails_with missing_data run
        /\ (1 <= n_scalars dataset ->
            run = Err (ContourNotPointData (Some name)))).
Proof.
  intros run. subst run. unfold contour, fails_with.
  split; [| split].
  - intros ->. cbn. eauto.
  - intros name -> Hact. rewrite Hact.
    destruct (n_scalars dataset <? 1)%nat eqn:En.
    + split; [eauto | intros Hn; apply Nat.ltb_lt in En; lia].
    + split; [eauto | reflexivity].
  - intros name arr -> Hget. rewrite Hget. cbn [fmap option_fmap option_map snd].
    destruct (n_scalars dataset <? 1)%nat eqn:En.
    + split; [eauto | intros Hn; apply Nat.ltb_lt in En; lia].
    + split; [eauto | reflexivity].
Qed.

End Contour.

(** ** Propagation of the bookkeeping metadata *)

Section Meta.

Context `{K : VtkKernel}.

Lemma clip_meta dataset normal origin invert out :
  clip dataset normal origin invert = Ok out ->
  active_scalar_info out = active_scalar_info dataset.
Proof.
  unfold clip. intros H.
  apply bind_is_Ok in H as (n & _ & H).
  apply bind_is_Ok in H as (p & _ & [= <-]). reflexivity.
Qed.

Lemma slice_meta dataset normal origin triangles out :
  slice dataset normal origin triangles = Ok out ->
  active_scalar_info out = active_scalar_info dataset.
Proof.
  unfold slice. intros H.
  apply bind_is_Ok in H as (n & _ & H).
  destruct (negb _); [discriminate |].
  apply bind_is_Ok in H as (p & _ & [= <-]). reflexivity.
Qed.

Lemma threshold_rec_meta depth : forall dataset value scalars invert continuous
    preference out,
  threshold_rec depth dataset value scalars invert continuous preference = Ok out ->
  active_scalar_info out = active_scalar_info dataset.
Proof.
  induction depth as [|depth IH]; intros dataset value scalars invert continuous
    preference out H; [discriminate |].
  cbn [threshold_rec] in H.
  destruct (get_scalar _ _ _) as [[arr fld]|]; [| discriminate].
  assert (Hstd : forall c : result threshold_criterion,
             (c ≫= (fun criterion =>
                Ok (_get_output
                      {| GetInputDataObject := dataset;
                         GetOutputDataObject :=
                           vtkThreshold (vtk_object dataset) fld
                             match scalars with
                             | Some _ => scalars
                             | None => snd (active_scalar_info dataset)
                             end continuous criterion |}
                      None POINT_DATA_FIELD))) = Ok out ->
             active_scalar_info out = active_scalar_info dataset).
  { intros c Hc. apply bind_is_Ok in Hc as (cr & _ & [= <-]). reflexivity. }
  destruct value as [|v|vs]; [now apply Hstd in H | now apply Hstd in H |].
  destruct invert; [| now apply Hstd in H].
  apply bind_is_Ok in H as (lo & _ & H).
  apply bind_is_Ok in H as (hi & _ & H).
  apply bind_is_Ok in H as (v0 & _ & H).
  apply bind_is_Ok in H as (t1 & Ht1 & H).
  apply bind_is_Ok in H as (v1 & _ & H).
  apply bind_is_Ok in H as (t2 & _ & [= <-]).
  transitivity (active_scalar_info t1); [reflexivity | now apply IH in Ht1].
Qed.

Lemma slice_along_axis_loop_meta dataset axis ax rng triangles indices :
  forall center (output mb : MultiBlock),
    (forall i name d, output !! i = Some (name, d) ->
                      active_scalar_info d = active_scalar_info dataset) ->
    slice_along_axis_loop dataset axis ax rng triangles indices center output
    = Ok mb ->
    forall i name d, mb !! i = Some (name, d) ->
                     active_scalar_info d = active_scalar_info dataset.
Proof.
  induction indices as [|j indices IH]; intros center output mb Hout H.
  - injection H as <-. exact Hout.
  - cbn [slice_along_axis_loop] in H.
    apply bind_is_Ok in H as (r & _ & H).
    apply bind_is_Ok in H as (c' & _ & H).
    apply bind_is_Ok in H as (slc & Hslc & H).
    eapply IH; [| exact H].
    intros i name d. unfold MultiBlock_setitem.
    rewrite lookup_insert_Some. intros [[_ [= _ <-]] | [_ Hi]].
    + now apply slice_meta in Hslc.
    + now apply Hout in Hi.
Qed.

End Meta.

Section MetaPropagation.

Context `{K : VtkKernel}.

(** C9 (amended).  Every filter that returns through [_get_output]
    ([clip], [slice] and the slices collected by [slice_orthogonal] and
    [slice_along_axis], [threshold], [threshold_percent],
    [extract_geometry], [wireframe], [contour], [elevation] with
    [set_active] off, [texture_map_to_plane] when not in place) returns a
    dataset that carries the active scalar designation of its input;
    [elevation] with [set_active] on designates the new [Elevation] array
    instead.  [outline] and [outline_corners] return the bare wrapped
    kernel output: its metadata is that of a fresh wrapper and does not
    depend on the metadata of the input. *)
Theorem filters_through_get_output_copy_meta (dataset : Dataset) :
  (forall normal origin invert out,
      clip dataset normal origin invert = Ok out ->
      active_scalar_info out = active_scalar_info dataset)
  /\ (forall normal origin triangles out,
        slice dataset normal origin triangles = Ok out ->
        active_scalar_info out = active_scalar_info dataset)
  /\ (forall x y z triangles mb i name d,
        slice_orthogonal dataset x y z triangles = Ok mb ->
        mb !! i = Some (name, d) ->
        active_scalar_info d = active_scalar_info dataset)
  /\ (forall n axis tolerance triangles mb i name d,
        slice_along_axis dataset n axis tolerance triangles = Ok mb ->
        mb !! i = Some (name, d) ->
        active_scalar_info d = active_scalar_info dataset)
  /\ (forall value scalars invert continuous preference out,
        threshold dataset value scalars invert continuous preference = Ok out ->
        active_scalar_info out = active_scalar_info dataset)
  /\ (forall percent scalars invert continuous preference out,
        threshold_percent dataset percent scalars invert continuous preference
        = Ok out ->
        active_scalar_info out = active_scalar_info dataset)
  /\ active_scalar_info (extract_geometry dataset) = active_scalar_info dataset
  /\ active_scalar_info (wireframe dataset) = active_scalar_info dataset
  /\ (forall isosurfaces scalars cn cg cs preference out,
        contour dataset isosurfaces scalars cn cg cs preference = Ok out ->
        active_scalar_info out = active_scalar_info dataset)
  /\ (forall low high rng preference set_active out,
        elevation dataset low high rng preference set_active = Ok out ->
        if set_active then snd (active_scalar_info out) = Some "Elevation"
        else active_scalar_info out = active_scalar_info dataset)
  /\ (forall origin point_u point_v name,
        exists out,
          texture_map_to_plane dataset origin point_u point_v false name
          = Ok (dataset, Some out)
          /\ active_scalar_info out = active_scalar_info dataset)
  /\ (forall generate_faces,
        outline dataset generate_faces
        = wrap (vtkOutlineFilter (vtk_object dataset) generate_faces)
        /\ active_scalar_info (outline dataset generate_faces)
           = (POINT_DATA_FIELD, None))
  /\ (forall factor,
        outline_corners dataset factor
        = wrap (vtkOutlineCornerFilter (vtk_object dataset) factor)
        /\ active_scalar_info (outline_corners dataset factor)
           = (POINT_DATA_FIELD, None))
  /\ (forall other generate_faces factor,
        vtk_object other = vtk_object dataset ->
        outline other generate_faces = outline dataset generate_faces
        /\ outline_corners other factor = outline_corners dataset factor).
Proof.
  repeat apply conj.
  - intros *. apply clip_meta.
  - intros *. apply slice_meta.
  - intros x y z triangles mb i name d H Hi. unfold slice_orthogonal in H.
    apply bind_is_Ok in H as (x' & _ & H).
    apply bind_is_Ok in H as (y' & _ & H).
    apply bind_is_Ok in H as (z' & _ & H).
    apply bind_is_Ok in H as (yz & Hyz & H).
    apply bind_is_Ok in H as (xz & Hxz & H).
    apply bind_is_Ok in H as (xy & Hxy & [= <-]).
    unfold MultiBlock_setitem in Hi.
    repeat (apply lookup_insert_Some in Hi as [[_ [= _ <-]] | [_ Hi]];
            [eauto using slice_meta |]).
    now rewrite lookup_empty in Hi.
  - intros n axis tolerance triangles mb i name d H Hi.
    unfold slice_along_axis in H.
    apply bind_is_Ok in H as (ax & _ & H).
    apply bind_is_Ok in H as (tol & _ & H).
    apply bind_is_Ok in H as (lo & _ & H).
    apply bind_is_Ok in H as (hi & _ & H).
    eapply slice_along_axis_loop_meta; [| exact H | exact Hi].
    intros j nm d'. now rewrite lookup_empty.
  - intros *. apply threshold_rec_meta.
  - intros percent scalars invert continuous preference out H.
    unfold threshold_percent in H.
    destruct (get_data_range _ _ _) as [dmin dmax].
    apply bind_is_Ok in H as (value & _ & H).
    now apply threshold_rec_meta in H.
  - reflexivity.
  - reflexivity.
  - intros isosurfaces scalars cn cg cs preference out H.
    unfold contour in H.
    destruct (n_scalars dataset <? 1)%nat; [discriminate |].
    destruct scalars as [name|].
    + destruct (snd <$> get_scalar _ _ _) as [[|]|]; try discriminate.
      apply bind_is_Ok in H as (values & _ & [= <-]). reflexivity.
    + destruct (active_scalar_info dataset) as [[|] name] eqn:E;
        try discriminate.
      apply bind_is_Ok in H as (values & _ & [= <-]).
      exact E.
  - intros low high rng preference set_active out H.
    unfold elevation in H.
    apply bind_is_Ok in H as (lp & _ & H).
    apply bind_is_Ok in H as (hp & _ & H).
    apply bind_is_Ok in H as (sr & _ & H).
    apply bind_is_Ok in H as (lp3 & _ & H).
    apply bind_is_Ok in H as (hp3 & _ & [= <-]).
    destruct set_active; reflexivity.
  - intros origin point_u point_v name. eexists. split; reflexivity.
  - intros generate_faces. split; reflexivity.
  - intros factor. split; reflexivity.
  - intros other generate_faces factor Hsame.
    unfold outline, outline_corners. now rewrite Hsame.
Qed.

End MetaPropagation.

(** ** Threshold *)


Lemma scalars_or_active_idempotent (dataset : Dataset) (scalars : option string) :
  scalars_or_active dataset (scalars_or_active dataset scalars)
  = scalars_or_active dataset scalars.
Proof.
  destruct scalars as [name|]; [reflexivity |].
  unfold scalars_or_active. now destruct (snd (active_scalar_info dataset)).
Qed.

Section Threshold.

Context `{K : VtkKernel}.


Lemma threshold_rec_plain (depth : nat) dataset value scalars continuous preference :
  threshold_rec (S depth) dataset value scalars false continuous preference
  = threshold_rec 1 dataset value scalars false continuous preference.
Proof.
  cbn [threshold_rec].
  destruct (get_scalar _ _ _) as [[arr fld]|]; [| reflexivity].
  destruct value; reflexivity.
Qed.

(** Two levels of calls are all [threshold] ever uses. *)
Lemma threshold_rec_depth (depth : nat) dataset value scalars invert continuous
    preference :
  threshold_rec (S (S depth)) dataset value scalars invert continuous preference
  = threshold dataset value scalars invert continuous preference.
Proof.
  unfold threshold.
  destruct invert; [| now rewrite !threshold_rec_plain].
  cbn [threshold_rec].
  destruct (get_scalar _ _ _) as [[arr fld]|]; [| reflexivity].
  destruct value as [|v|vs]; reflexivity.
Qed.

End Threshold.

(** *** The NaN-ignoring minimum and maximum *)

Lemma fmin_cases (x y : float) :
  (np.fmin x y = x \/ np.fmin x y = y)
  /\ (forall q, x = Fin q \/ y = Fin q -> exists m, np.fmin x y = Fin m /\ (m <= q)%Q).
Proof.
  destruct x as [|a], y as [|b]; cbn; (split; [auto |]).
  - intros q [[=] | [=]].
  - intros q [[=] | [= ->]]. exists q. split; [reflexivity | lra].
  - intros q [[= ->] | [=]]. exists q. split; [reflexivity | lra].
  - destruct (Qle_bool a b) eqn:E; auto.
  - destruct (Qle_bool a b) eqn:E.
    + apply Qle_bool_true in E.
      intros q [[= ->] | [= ->]]; eexists; (split; [reflexivity | lra]).
    + apply Qle_bool_false in E.
      intros q [[= ->] | [= ->]]; eexists; (split; [reflexivity | lra]).
Qed.

Lemma fmax_cases (x y : float) :
  (np.fmax x y = x \/ np.fmax x y = y)
  /\ (forall q, x = Fin q \/ y = Fin q -> exists m, np.fmax x y = Fin m /\ (q <= m)%Q).
Proof.
  destruct x as [|a], y as [|b]; cbn; (split; [auto |]).
  - intros q [[=] | [=]].
  - intros q [[=] | [= ->]]. exists q. split; [reflexivity | lra].
  - intros q [[= ->] | [=]]. exists q. split; [reflexivity | lra].
  - destruct (Qle_bool a b) eqn:E; auto.
  - destruct (Qle_bool a b) eqn:E.
    + apply Qle_bool_true in E.
      intros q [[= ->] | [= ->]]; eexists; (split; [reflexivity | lra]).
    + apply Qle_bool_false in E.
      intros q [[= ->] | [= ->]]; eexists; (split; [reflexivity | lra]).
Qed.

Lemma foldl_fmin_spec (arr : array) : forall x : float,
  foldl np.fmin x arr ∈ x :: arr
  /\ (forall q, Fin q ∈ x :: arr ->
        exists m, foldl np.fmin x arr = Fin m /\ (m <= q)%Q).
Proof.
  induction arr as [|y arr IH]; intros x; cbn [foldl].
  - split; [left |]. intros q Hq. apply list_elem_of_singleton in Hq as <-.
    exists q. split; [reflexivity | lra].
  - destruct (IH (np.fmin x y)) as [Hin Hle].
    destruct (fmin_cases x y) as [Hxy Hmin]. split.
    + apply elem_of_cons in Hin as [-> | Hin].
      * destruct Hxy as [-> | ->]; [left | right; left].
      * right. now right.
    + intros q Hq.
      assert (Hq' : (x = Fin q \/ y = Fin q) \/ Fin q ∈ arr).
      { rewrite !elem_of_cons in Hq. intuition auto. }
      destruct Hq' as [Hq' | Hq'].
      * destruct (Hmin q Hq') as (m & Hm & Hmq).
        destruct (Hle m) as (m' & Hm' & Hle'); [rewrite Hm; left |].
        exists m'. split; [exact Hm' | lra].
      * apply Hle. now right.
Qed.

Lemma foldl_fmax_spec (arr : array) : forall x : float,
  foldl np.fmax x arr ∈ x :: arr
  /\ (forall q, Fin q ∈ x :: arr ->
        exists m, foldl np.fmax x arr = Fin m /\ (q <= m)%Q).
Proof.
  induction arr as [|y arr IH]; intros x; cbn [foldl].
  - split; [left |]. intros q Hq. apply list_elem_of_singleton in Hq as <-.
    exists q. split; [reflexivity | lra].
  - destruct (IH (np.fmax x y)) as [Hin Hle].
    destruct (fmax_cases x y) as [Hxy Hmax]. split.
    + apply elem_of_cons in Hin as [-> | Hin].
      * destruct Hxy as [-> | ->]; [left | right; left].
      * right. now right.
    + intros q Hq.
      assert (Hq' : (x = Fin q \/ y = Fin q) \/ Fin q ∈ arr).
      { rewrite !elem_of_cons in Hq. intuition auto. }
      destruct Hq' as [Hq' | Hq'].
      * destruct (Hmax q Hq') as (m & Hm & Hmq).
        destruct (Hle m) as (m' & Hm' & Hle'); [rewrite Hm; left |].
        exists m'. split; [exact Hm' | lra].
      * apply Hle. now right.
Qed.

(** [np.nanmin] returns an entry of the array that is below every non-NaN
    entry (so it is NaN only when every entry is). *)
Lemma nanmin_spec (arr : array) (lo : float) :
  np.nanmin arr = Ok lo ->
  lo ∈ arr /\ forall q, Fin q ∈ arr -> exists m, lo = Fin m /\ (m <= q)%Q.
Proof.
  destruct arr as [|x arr]; [discriminate |]. intros [= <-].
  apply foldl_fmin_spec.
Qed.

Lemma nanmax_spec (arr : array) (hi : float) :
  np.nanmax arr = Ok hi ->
  hi ∈ arr /\ forall q, Fin q ∈ arr -> exists m, hi = Fin m /\ (q <= m)%Q.
Proof.
  destruct arr as [|x arr]; [discriminate |]. intros [= <-].
  apply foldl_fmax_spec.
Qed.

Section InvertedRange.

Context `{K : VtkKernel}.

Lemma threshold_scalars_resolved dataset value scalars invert continuous preference :
  threshold dataset value (scalars_or_active dataset scalars) invert continuous
    preference
  = threshold dataset value scalars invert continuous preference.
Proof.
  destruct scalars as [name|]; [reflexivity |].
  unfold threshold, scalars_or_active.
  destruct (snd (active_scalar_info dataset)) as [name|] eqn:E; cbn [threshold_rec];
    rewrite E; reflexivity.
Qed.

Lemma threshold_range_plain dataset lower upper scalars continuous preference arr fld :
  get_scalar dataset (scalars_or_active dataset scalars) preference = Some (arr, fld) ->
  threshold dataset (ValueIterable [lower; upper]) scalars false continuous preference
  = Ok (between dataset fld (scalars_or_active dataset scalars) continuous lower upper).
Proof.
  intros H. unfold threshold. cbn [threshold_rec].
  fold (scalars_or_active dataset scalars). rewrite H. reflexivity.
Qed.

(** The inverted range threshold, as [threshold] computes it. *)
Lemma threshold_inverted_unfold dataset v0 v1 scalars continuous preference :
  threshold dataset (ValueIterable [v0; v1]) scalars true continuous preference
  = union_of_bracketing_thresholds dataset v0 v1 scalars continuous preference.
Proof.
  unfold union_of_bracketing_thresholds, threshold at 1.
  change (threshold_rec 2 dataset (ValueIterable [v0; v1]) scalars true continuous
            preference)
    with (match get_scalar dataset (scalars_or_active dataset scalars) preference with
          | None => Err NoArraysToThreshold
          | Some (arr, _) =>
              lo ← np.nanmin arr;
              hi ← np.nanmax arr;
              t1 ← threshold_rec 1 dataset (ValueIterable [lo; v0])
                     (scalars_or_active dataset scalars) false continuous preference;
              t2 ← threshold_rec 1 dataset (ValueIterable [v1; hi])
                     (scalars_or_active dataset scalars) false continuous preference;
              Ok (merged t1 t2)
          end).
  destruct (get_scalar _ _ _) as [[arr fld]|] eqn:Hget; [| reflexivity].
  destruct (np.nanmin arr) as [lo|]; [| reflexivity].
  destruct (np.nanmax arr) as [hi|]; [| reflexivity].
  cbn [mbind result_bind].
  rewrite <- !(threshold_rec_plain 1).
  change (threshold_rec 2) with threshold.
  rewrite !threshold_scalars_resolved.
  rewrite !(threshold_range_plain _ _ _ _ _ _ _ _ Hget).
  reflexivity.
Qed.

(** C1.  For every dataset and every range [v0, v1], [threshold] with
    [invert=True] returns the union of two plain (non-inverted) range
    thresholds of the dataset: the kernel's append of the kernel's
    threshold between array-min and [v0] and of its threshold between [v1]
    and array-max, under the bookkeeping of the dataset.  These two are
    what the plain calls of [threshold] over [array-min, v0] and over
    [v1, array-max] return, each run on its own; array-min and array-max
    are the NaN-ignoring minimum and maximum of the resolved scalar array.
    When no array resolves, the inverted call and the plain calls fail
    alike. *)
Theorem threshold_inverted_range_is_merge (dataset : Dataset) (v0 v1 : float)
    (scalars : option string) (continuous : bool) (preference : field) :
  let name := scalars_or_active dataset scalars in
  let run value invert :=
    threshold dataset value scalars invert continuous preference in
  run (ValueIterable [v0; v1]) true
  = union_of_bracketing_thresholds dataset v0 v1 scalars continuous preference
  /\ (forall arr fld lo hi,
        get_scalar dataset name preference = Some (arr, fld) ->
        np.nanmin arr = Ok lo ->
        np.nanmax arr = Ok hi ->
        let below := vtkThreshold (vtk_object dataset) fld name continuous
                       (ThresholdBetween lo v0) in
        let above := vtkThreshold (vtk_object dataset) fld name continuous
                       (ThresholdBetween v1 hi) in
        run (ValueIterable [lo; v0]) false
        = Ok {| vtk_object := below;
                _active_scalar_info := active_scalar_info dataset |}
        /\ run (ValueIterable [v1; hi]) false
           = Ok {| vtk_object := above;
                   _active_scalar_info := active_scalar_info dataset |}
        /\ run (ValueIterable [v0; v1]) true
           = Ok {| vtk_object := vtkAppendFilter [below; above];
                   _active_scalar_info := active_scalar_info dataset |}
        /\ lo ∈ arr /\ hi ∈ arr
        /\ (forall q, Fin q ∈ arr ->
              exists a b, lo = Fin a /\ hi = Fin b /\ (a <= q <= b)%Q))
  /\ (get_scalar dataset name preference = None ->
      run (ValueIterable [v0; v1]) true = Err NoArraysToThreshold
      /\ forall a b, run (ValueIterable [a; b]) false = Err NoArraysToThreshold).
Proof.
  intros name run. subst name run. cbv beta.
  split_and!; [apply threshold_inverted_unfold | |].
  - intros arr fld lo hi Hget Hlo Hhi below above.
    pose proof (threshold_range_plain dataset lo v0 scalars continuous preference
                  arr fld Hget) as H1.
    pose proof (threshold_range_plain dataset v1 hi scalars continuous preference
                  arr fld Hget) as H2.
    split_and!; [exact H1 | exact H2 | | | |].
    + rewrite threshold_inverted_unfold. unfold union_of_bracketing_thresholds.
      rewrite Hget, Hlo, Hhi. reflexivity.
    + apply (nanmin_spec arr lo Hlo).
    + apply (nanmax_spec arr hi Hhi).
    + intros q Hq.
      destruct (proj2 (nanmin_spec arr lo Hlo) q Hq) as (a & -> & Ha).
      destruct (proj2 (nanmax_spec arr hi Hhi) q Hq) as (b & -> & Hb).
      exists a, b. repeat split; auto.
  - intros Hget. split.
    + rewrite threshold_inverted_unfold. unfold union_of_bracketing_thresholds.
      now rewrite Hget.
    + intros a b. unfold threshold. cbn [threshold_rec].
      fold (scalars_or_active dataset scalars). now rewrite Hget.
Qed.

End InvertedRange.

(** ** Threshold by percentage *)

Lemma tiny_value : (1e-10 == 1 # 10000000000)%Q.
Proof. reflexivity. Qed.

Lemma _check_percent_spec (q : Q) :
  _check_percent (Fin q)
  = if Qle_bool 1 q then
      if Qle_bool (q / 100) 1 then Ok (Fin (q / 100))
      else Err (PercentOutOfRange (Fin (q / 100)))
    else if Qle_bool 1e-10 q then Ok (Fin q)
    else Err (PercentTooSmall (Fin q)).
Proof.
  unfold _check_percent.
  change (Fin q >=? Fin 1)%float with (Qle_bool 1 q).
  change (Fin q / Fin 100)%float with (Fin (q / 100)).
  change (Fin (q / 100) >? Fin 1)%float with (negb (Qle_bool (q / 100) 1)).
  destruct (Qle_bool 1 q) eqn:E1.
  - destruct (Qle_bool (q / 100) 1) eqn:E2; cbn [negb mbind result_bind];
      [| reflexivity].
    change (Fin (q / 100) <? Fin 1e-10)%float
      with (negb (Qle_bool 1e-10 (q / 100))).
    assert (E3 : Qle_bool 1e-10 (q / 100) = true).
    { apply Qle_bool_true. apply Qle_bool_true in E1.
      pose proof tiny_value.
      unfold Qdiv at 2. change (/ 100)%Q with (1 # 100)%Q. lra. }
    now rewrite E3.
  - cbn [mbind result_bind].
    change (Fin q <? Fin 1e-10)%float with (negb (Qle_bool 1e-10 q)).
    now destruct (Qle_bool 1e-10 q).
Qed.

Section Percent.

Context `{K : VtkKernel}.

Lemma threshold_percent_check_fails dataset p scalars invert continuous preference e :
  _check_percent p = Err e ->
  threshold_percent dataset (PercentScalar p) scalars invert continuous preference
  = Err e.
Proof.
  intros H. unfold threshold_percent, _get_val.
  destruct (get_data_range _ _ _) as [dmin dmax]. now rewrite H.
Qed.

(** C3 (amended).  [threshold_percent] normalises a numeric percent by
    dividing values of 1 and above by 100.  The check passes, with the
    normalised value, exactly when that value lies in the closed interval
    from 1e-10 to 1; otherwise the check, and with it [threshold_percent]
    on any dataset, fails with an out-of-range error.  So 0 and 1e-11 fail
    and 150 fails, while 1.5 is read as 1.5 per cent, normalised to 0.015,
    and passes. *)
Theorem threshold_percent_range_check (q : Q) :
  ((1e-10 <= normalized q <= 1)%Q ->
     _check_percent (Fin q) = Ok (Fin (normalized q)))
  /\ (~ (1e-10 <= normalized q <= 1)%Q ->
        fails_with out_of_range (_check_percent (Fin q))
        /\ forall dataset scalars invert continuous preference,
             fails_with out_of_range
               (threshold_percent dataset (PercentScalar (Fin q)) scalars invert
                  continuous preference))
  /\ (forall dataset scalars invert continuous preference,
        fails_with out_of_range
          (threshold_percent dataset (PercentScalar (Fin 0)) scalars invert
             continuous preference)
        /\ fails_with out_of_range
             (threshold_percent dataset (PercentScalar (Fin 1e-11)) scalars invert
                continuous preference)
        /\ fails_with out_of_range
             (threshold_percent dataset (PercentScalar (Fin 150)) scalars invert
                continuous preference))
  /\ _check_percent (Fin 1.5) = Ok (Fin (1.5 / 100))
  /\ (1.5 / 100 == 0.015)%Q.
Proof.
  assert (Hfail : ~ (1e-10 <= normalized q <= 1)%Q ->
                  fails_with out_of_range (_check_percent (Fin q))).
  { intros Hout. rewrite _check_percent_spec. unfold normalized in Hout.
    unfold fails_with.
    destruct (Qle_bool 1 q) eqn:E1.
    - destruct (Qle_bool (q / 100) 1) eqn:E2; [| eauto].
      exfalso. apply Hout. apply Qle_bool_true in E1, E2. split; [| exact E2].
      pose proof tiny_value.
      unfold Qdiv at 2. change (/ 100)%Q with (1 # 100)%Q. lra.
    - destruct (Qle_bool 1e-10 q) eqn:E2; [| eauto].
      exfalso. apply Hout. apply Qle_bool_false in E1. apply Qle_bool_true in E2.
      pose proof tiny_value. lra. }
  split; [| split; [| split; [| split]]].
  - intros [Hlo Hhi]. rewrite _check_percent_spec. unfold normalized in *.
    destruct (Qle_bool 1 q) eqn:E1.
    + apply Qle_bool_true in Hhi. now rewrite Hhi.
    + apply Qle_bool_true in Hlo. now rewrite Hlo.
  - intros Hout. split; [now apply Hfail |].
    intros dataset scalars invert continuous preference.
    destruct (Hfail Hout) as (e & He & Hk).
    exists e. split; [| exact Hk]. now apply threshold_percent_check_fails.
  - intros dataset scalars invert continuous preference. repeat split.
    + exists (PercentTooSmall (Fin 0)). split; [| reflexivity].
      now apply threshold_percent_check_fails.
    + exists (PercentTooSmall (Fin 1e-11)). split; [| reflexivity].
      now apply threshold_percent_check_fails.
    + exists (PercentOutOfRange (Fin (150 / 100))). split; [| reflexivity].
      now apply threshold_percent_check_fails.
  - reflexivity.
  - reflexivity.
Qed.

End Percent.

(** ** Evenly spaced offsets *)

Lemma inject_nat_pos (d : nat) : (0 < inject_Z (Z.of_nat (S d)))%Q.
Proof. change 0%Q with (inject_Z 0). rewrite <- Zlt_Qlt. lia. Qed.

Lemma inject_nat_le (i j : nat) : (i <= j)%nat -> (inject_Z (Z.of_nat i) <= inject_Z (Z.of_nat j))%Q.
Proof. intros H. rewrite <- Zle_Qle. lia. Qed.

Lemma linspace_Q_length a b n : length (linspace_Q a b n) = n.
Proof.
  destruct n as [|[|d]]; [reflexivity..|].
  unfold linspace_Q. rewrite length_app, length_fmap, length_seq. cbn. lia.
Qed.

Lemma step_Q_last a b d :
  (a + inject_Z (Z.of_nat (S d)) * step_Q a b (S (S d)) == b)%Q.
Proof.
  unfold step_Q. rewrite Qmult_div_r; [ring |].
  pose proof (inject_nat_pos d). lra.
Qed.

Lemma linspace_Q_lookup a b n i o :
  linspace_Q a b n !! i = Some o ->
  (i < n)%nat /\ (o == a + inject_Z (Z.of_nat i) * step_Q a b n)%Q.
Proof.
  intros H.
  assert (Hlt : (i < n)%nat).
  { apply lookup_lt_Some in H. now rewrite linspace_Q_length in H. }
  split; [exact Hlt |].
  destruct n as [|[|d]].
  - discriminate.
  - destruct i; [| discriminate]. injection H as <-. cbn. ring.
  - unfold linspace_Q in H.
    destruct (decide (i < S d)%nat) as [Hi | Hi].
    + rewrite lookup_app_l in H by (rewrite length_fmap, length_seq; lia).
      rewrite list_lookup_fmap, lookup_seq_lt in H by lia.
      injection H as <-. reflexivity.
    + rewrite lookup_app_r in H by (rewrite length_fmap, length_seq; lia).
      rewrite length_fmap, length_seq in H.
      destruct (i - S d)%nat eqn:E; [| discriminate].
      injection H as <-. assert (i = S d) as -> by lia.
      symmetry. apply step_Q_last.
Qed.

Lemma linspace_Q_range a b n i o :
  (a <= b)%Q -> linspace_Q a b n !! i = Some o -> (a <= o <= b)%Q.
Proof.
  intros Hab Hi.
  apply linspace_Q_lookup in Hi as [Hin Hi].
  destruct n as [|[|d]]; [lia | |].
  - cbn in Hi. lra.
  - pose proof (step_Q_last a b d) as Hlast.
    assert (Hstep : (0 <= step_Q a b (S (S d)))%Q).
    { unfold step_Q. apply Qle_shift_div_l; [apply inject_nat_pos | lra]. }
    pose proof (inject_nat_le 0 i ltac:(lia)) as H0.
    pose proof (inject_nat_le i (S d) ltac:(lia)) as H1.
    change (inject_Z (Z.of_nat 0)) with 0%Q in H0.
    rewrite Hi. split; nra.
Qed.

Lemma div_of_nat (x : Q) (d : nat) :
  (Fin x / Float.of_nat (S d))%float = Fin (x / inject_Z (Z.of_nat (S d))).
Proof.
  unfold Float.div, Float.of_nat.
  destruct (Qeq_bool _ 0) eqn:E; [| reflexivity].
  apply Qeq_bool_eq in E. pose proof (inject_nat_pos d). lra.
Qed.

Lemma linspace_Fin (a b : Q) (n : nat) :
  np.linspace (Fin a) (Fin b) n = Fin <$> linspace_Q a b n.
Proof.
  destruct n as [|[|d]]; [reflexivity.. |].
  unfold np.linspace, linspace_Q.
  change (Fin b - Fin a)%float with (Fin (b - a)).
  rewrite div_of_nat, fmap_app, <- list_fmap_compose. reflexivity.
Qed.

(** ** The slices along an axis *)

Lemma py_getitem_nat {A : Type} (l : list A) (i : nat) (a : A) :
  l !! i = Some a -> py_getitem l (Z.of_nat i) = Ok a.
Proof.
  intros H. unfold py_getitem.
  destruct (Z.of_nat i <? 0)%Z eqn:E; [apply Z.ltb_lt in E; lia |].
  rewrite E, Nat2Z.id, H. reflexivity.
Qed.

Lemma py_setitem_nat {A : Type} (l : list A) (i : nat) (x : A) :
  i < length l -> py_setitem l (Z.of_nat i) x = Ok (<[i := x]> l).
Proof.
  intros H. unfold py_setitem.
  destruct (Z.of_nat i <? 0)%Z eqn:E; [apply Z.ltb_lt in E; lia |].
  rewrite E, Nat2Z.id.
  destruct (Z.of_nat i <? Z.of_nat (length l))%Z eqn:E'; [reflexivity |].
  apply Z.ltb_ge in E'. lia.
Qed.

Lemma axes_names (name : string) (k : Z) :
  axes !! name = Some k ->
  (name = "x" /\ k = 0%Z) \/ (name = "y" /\ k = 1%Z) \/ (name = "z" /\ k = 2%Z).
Proof.
  unfold axes. intros H. apply elem_of_list_to_map_2 in H.
  rewrite !elem_of_cons, elem_of_nil in H.
  destruct H as [[= -> ->] | [[= -> ->] | [[= -> ->] | []]]]; auto.
Qed.


Section AlongAxis.

Context `{K : VtkKernel}.


(** A slice through the center moved along one of the axes, to an offset
    within the bounds of that axis, passes the bounds check. *)
Lemma slice_on_axis dataset name (ax : nat) triangles (x0 x1 y0 y1 z0 z1 lo hi o : Q) :
  axes !! name = Some (Z.of_nat ax) ->
  bounds dataset = [Fin x0; Fin x1; Fin y0; Fin y1; Fin z0; Fin z1] ->
  (x0 <= x1)%Q -> (y0 <= y1)%Q -> (z0 <= z1)%Q ->
  [x0; x1; y0; y1; z0; z1] !! (2 * ax) = Some lo ->
  [x0; x1; y0; y1; z0; z1] !! (2 * ax + 1) = Some hi ->
  (lo <= o <= hi)%Q ->
  is_ok (slice dataset (PyStr name) (Some (<[ax := Fin o]> (center dataset)))
           triangles) = true.
Proof.
  intros Hname Hb Hx Hy Hz Hlo Hhi Ho.
  pose proof (midpoint_between _ _ Hx). pose proof (midpoint_between _ _ Hy).
  pose proof (midpoint_between _ _ Hz).
  rewrite (center_of_bounds _ _ _ _ _ _ _ Hb).
  apply axes_names in Hname as [[-> Hk] | [[-> Hk] | [-> Hk]]];
    [ assert (ax = 0) as -> by lia
    | assert (ax = 1) as -> by lia
    | assert (ax = 2) as -> by lia ];
    injection Hlo as <-; injection Hhi as <-;
    unfold slice;
    match goal with
    | |- context [resolve_normal ?n] =>
        let r := eval vm_compute in (resolve_normal n) in
        change (resolve_normal n) with r
    end;
    cbn [mbind result_bind]; rewrite Hb; cbn [list_insert insert];
    (replace (is_inside_bounds _ _) with true; [reflexivity |]);
    symmetry; apply is_inside_bounds_3; tauto.
Qed.

End AlongAxis.


Section AlongAxisSpec.

Context `{K : VtkKernel}.





End AlongAxisSpec.

(** ** A numeric axis *)

Lemma inside_on_axis dataset (ax : nat) (x0 x1 y0 y1 z0 z1 lo hi o : Q) :
  ax < 3 ->
  bounds dataset = [Fin x0; Fin x1; Fin y0; Fin y1; Fin z0; Fin z1] ->
  (x0 <= x1)%Q -> (y0 <= y1)%Q -> (z0 <= z1)%Q ->
  [x0; x1; y0; y1; z0; z1] !! (2 * ax) = Some lo ->
  [x0; x1; y0; y1; z0; z1] !! (2 * ax + 1) = Some hi ->
  (lo <= o <= hi)%Q ->
  is_inside_bounds (<[ax := Fin o]> (center dataset)) (bounds dataset) = true.
Proof.
  intros Hax Hb Hx Hy Hz Hlo Hhi Ho.
  pose proof (midpoint_between _ _ Hx). pose proof (midpoint_between _ _ Hy).
  pose proof (midpoint_between _ _ Hz).
  rewrite (center_of_bounds _ _ _ _ _ _ _ Hb), Hb.
  destruct ax as [|[|[|ax]]]; [| | | lia];
    injection Hlo as <-; injection Hhi as <-;
    apply is_inside_bounds_3; tauto.
Qed.

Section NumericAxis.

Context `{K : VtkKernel}.

(** [slice] cannot build a plane from an integer normal. *)
Lemma slice_integer_normal dataset (k : Z) origin triangles :
  is_ok (slice dataset (PyInt k) origin triangles) = false
  /\ (is_inside_bounds (match origin with
                        | None => center dataset
                        | Some o => o
                        end) (bounds dataset) = true ->
      slice dataset (PyInt k) origin triangles = Err TypeError).
Proof.
  unfold slice. cbn [resolve_normal mbind result_bind].
  destruct (is_inside_bounds _ _); [split; reflexivity | split; [reflexivity |]].
  discriminate.
Qed.

(** C5.  What [slice_along_axis] does with its two kinds of axis.  A
    numeric axis is accepted by the axis look-up, but the loop hands it to
    [slice] as the normal and [slice] cannot read a plane normal off an
    integer: with a count of one or more the call always fails, and on a
    dataset with ordered bounds and a positive extent along the axis 0, 1
    or 2 it raises TypeError where the symbolic name returns its slices.
    A symbolic name outside the table fails with the invalid-argument
    error 'Axis not understood'. *)
Theorem slice_along_axis_numeric_axis_raises (dataset : Dataset) :
  (forall n k tolerance triangles,
      fails (slice_along_axis dataset (S n) (PyInt k) tolerance triangles))
  /\ (forall n (ax : nat) triangles (x0 x1 y0 y1 z0 z1 lo hi : Q),
        ax < 3 ->
        bounds dataset = [Fin x0; Fin x1; Fin y0; Fin y1; Fin z0; Fin z1] ->
        (x0 <= x1)%Q -> (y0 <= y1)%Q -> (z0 <= z1)%Q ->
        [x0; x1; y0; y1; z0; z1] !! (2 * ax) = Some lo ->
        [x0; x1; y0; y1; z0; z1] !! (2 * ax + 1) = Some hi ->
        (lo < hi)%Q ->
        slice_along_axis dataset (S n) (PyInt (Z.of_nat ax)) None triangles
        = Err TypeError)
  /\ (forall s n tolerance triangles,
        axes !! s = None ->
        slice_along_axis dataset n (PyStr s) tolerance triangles
        = Err (AxisNotUnderstood s)
        /\ kind_of (AxisNotUnderstood s) = invalid_argument).
Proof.
  split_and!.
  - intros n k tolerance triangles. unfold fails, slice_along_axis.
    cbn [mbind result_bind].
    destruct (match tolerance with Some t => Ok t | None => _ end) as [tol|e];
      [| eauto].
    cbn [mbind result_bind].
    destruct (py_getitem (bounds dataset) (k * 2)) as [lo|e]; [| eauto].
    destruct (py_getitem (bounds dataset) (k * 2 + 1)) as [hi|e]; [| eauto].
    cbn [mbind result_bind seq slice_along_axis_loop].
    destruct (py_getitem _ (Z.of_nat 0)) as [r|e]; [| eauto].
    cbn [mbind result_bind].
    destruct (py_setitem _ k r) as [c|e]; [| eauto].
    cbn [mbind result_bind].
    pose proof (slice_integer_normal dataset k (Some c) triangles) as [Hs _].
    destruct (slice dataset (PyInt k) (Some c) triangles) as [d|e];
      [discriminate | eauto].
  - intros n ax triangles x0 x1 y0 y1 z0 z1 lo hi Hax Hb Hx Hy Hz Hlo Hhi Hlt.
    set (tol := ((hi - lo) * 0.01)%Q).
    assert (Hspan : (lo + tol <= hi - tol)%Q) by (unfold tol; lra).
    assert (Htol : (0 < tol)%Q) by (unfold tol; lra).
    assert (Hblo : bounds dataset !! (2 * ax) = Some (Fin lo)).
    { rewrite Hb. change (Some (Fin lo)) with (Fin <$> Some lo). rewrite <- Hlo.
      apply (list_lookup_fmap Fin [x0; x1; y0; y1; z0; z1]). }
    assert (Hbhi : bounds dataset !! (2 * ax + 1) = Some (Fin hi)).
    { rewrite Hb. change (Some (Fin hi)) with (Fin <$> Some hi). rewrite <- Hhi.
      apply (list_lookup_fmap Fin [x0; x1; y0; y1; z0; z1]). }
    destruct (lookup_lt_is_Some_2 (linspace_Q (lo + tol) (hi - tol) (S n)) 0)
      as [o Ho]; [rewrite linspace_Q_length; lia |].
    pose proof (linspace_Q_range _ _ _ _ _ Hspan Ho) as Hrange.
    unfold slice_along_axis. cbn [mbind result_bind].
    replace (Z.of_nat ax * 2 + 1)%Z with (Z.of_nat (2 * ax + 1)) by lia.
    replace (Z.of_nat ax * 2)%Z with (Z.of_nat (2 * ax)) by lia.
    rewrite (py_getitem_nat _ _ _ Hblo), (py_getitem_nat _ _ _ Hbhi).
    cbn [mbind result_bind].
    change ((Fin hi - Fin lo) * Fin 0.01)%float with (Fin tol).
    change (Fin lo + Fin tol)%float with (Fin (lo + tol)).
    change (Fin hi - Fin tol)%float with (Fin (hi - tol)).
    rewrite linspace_Fin. cbn [seq slice_along_axis_loop].
    rewrite (py_getitem_nat _ 0 (Fin o)) by (now rewrite list_lookup_fmap, Ho).
    cbn [mbind result_bind].
    rewrite py_setitem_nat
      by (rewrite (center_of_bounds _ _ _ _ _ _ _ Hb); cbn; lia).
    cbn [mbind result_bind].
    destruct (slice_integer_normal dataset (Z.of_nat ax)
                (Some (<[ax := Fin o]> (center dataset))) triangles) as [_ Hs].
    rewrite Hs; [reflexivity |].
    apply (inside_on_axis dataset ax x0 x1 y0 y1 z0 z1 lo hi o); auto. lra.
  - intros s n tolerance triangles Hs. unfold slice_along_axis. rewrite Hs.
    split; reflexivity.
Qed.

End NumericAxis.

(* ================================================================== *)
(** * The filters on the sample dataset *)
(* ================================================================== *)

Example format_2d_samples :
  (format_2d 0, format_2d 4, format_2d 42, format_2d 100) = ("00", "04", "42", "100").
Proof. reflexivity. Qed.

Example lower_samples : (lower "X", lower "-Y", lower "-z") = ("x", "-y", "-z").
Proof. reflexivity. Qed.

Example linspace_samples :
  linspace_Q 1 3 5 !! 2 = Some (1 + 2 * ((3 - 1) / 4))%Q
  /\ np.linspace (Fin 1) (Fin 3) 1 = [Fin 1]
  /\ np.linspace (Fin 1) (Fin 3) 0 = [].
Proof. repeat split. Qed.

Example nanmin_ignores_nan :
  np.nanmin [NaN; Fin 4; Fin 2; NaN] = Ok (Fin 2)
  /\ np.nanmax [NaN; Fin 4; Fin 2; NaN] = Ok (Fin 4)
  /\ np.nanmin [NaN; NaN] = Ok NaN
  /\ np.nanmin [] = Err ValueError.
Proof. repeat split. Qed.

Example threshold_percent_fifty :
  @threshold_percent Sample.kernel Sample.box (PercentScalar (Fin 50)) None false
    false CELL_DATA_FIELD
  = Ok (@_get_output
          {| GetInputDataObject := Sample.box;
             GetOutputDataObject :=
               @vtkThreshold Sample.kernel (vtk_object Sample.box) CELL_DATA_FIELD
                 (Some "values") false
                 (ThresholdByUpper (Fin (0 + 50 / 100 * (10 - 0)))) |}
          None POINT_DATA_FIELD).
Proof. reflexivity. Qed.

Ltac Qcompare :=
  vm_compute;
  first [ reflexivity | discriminate
        | let H := fresh in intros H; now apply H ].

(** C1, on the box: the cell array spans [0, 10]; excluding [3, 7] merges
    the thresholds over [0, 3] and over [7, 10], and with the sample
    kernel the cells that remain are those of value 0, 2, 3 and 7, 10. *)
Lemma threshold_inverted_range_is_merge_witness :
  get_scalar Sample.box (Some "values") CELL_DATA_FIELD
  = Some ([Fin 0; Fin 2; Fin 3; Fin 5; Fin 7; Fin 10], CELL_DATA_FIELD)
  /\ (let below :=
        @vtkThreshold Sample.kernel (vtk_object Sample.box) CELL_DATA_FIELD
          (Some "values") false (ThresholdBetween (Fin 0) (Fin 3)) in
      let above :=
        @vtkThreshold Sample.kernel (vtk_object Sample.box) CELL_DATA_FIELD
          (Some "values") false (ThresholdBetween (Fin 7) (Fin 10)) in
      @threshold Sample.kernel Sample.box (ValueIterable [Fin 3; Fin 7]) None true
        false CELL_DATA_FIELD
      = Ok {| vtk_object := @vtkAppendFilter Sample.kernel [below; above];
              _active_scalar_info := (CELL_DATA_FIELD, Some "values") |}
      /\ GetCellData (@vtkAppendFilter Sample.kernel [below; above])
         = [("values", [Fin 0; Fin 2; Fin 3; Fin 7; Fin 10])]).
Proof.
  split; [reflexivity |].
  pose proof (proj1 (proj2 (@threshold_inverted_range_is_merge Sample.kernel
                              Sample.box (Fin 3) (Fin 7) None false CELL_DATA_FIELD))
                [Fin 0; Fin 2; Fin 3; Fin 5; Fin 7; Fin 10] CELL_DATA_FIELD
                (Fin 0) (Fin 10) eq_refl eq_refl eq_refl) as H.
  split; [exact (proj1 (proj2 (proj2 H))) | reflexivity].
Defined.

(** C2, on the box: an origin beyond the x-range is refused, the center is
    accepted. *)
Lemma slice_checks_origin_in_bounds_witness :
  @slice Sample.kernel Sample.box (PyStr "x") (Some [Fin 11; Fin 2; Fin 0]) false
  = Err SliceOutsideBounds
  /\ is_inside_bounds (center Sample.box) (bounds Sample.box) = true.
Proof.
  pose proof (@slice_checks_origin_in_bounds Sample.kernel Sample.box (PyStr "x")
                false 0 10 0 4 (-1) 1 eq_refl) as [Hout Hin].
  split.
  - apply (Hout 11%Q 2%Q 0%Q); [| reflexivity].
    intros [[_ H] _]. revert H. Qcompare.
  - apply (Hin ltac:(Qcompare) ltac:(Qcompare) ltac:(Qcompare)
             (Fin 1) (Fin 0) (Fin 0) eq_refl).
Defined.

(** C3, at one half: the percentage is in range and passes unchanged. *)
Lemma threshold_percent_range_check_witness :
  (1e-10 <= normalized 0.5 <= 1)%Q
  /\ _check_percent (Fin 0.5) = Ok (Fin (normalized 0.5)).
Proof.
  assert (H : (1e-10 <= normalized 0.5 <= 1)%Q) by (split; Qcompare).
  split; [exact H |].
  exact (proj1 (@threshold_percent_range_check Sample.kernel 0.5%Q) H).
Defined.

(** The claim C3 as stated fails: 1.5 is read as 1.5 per cent and
    [threshold_percent] returns; and the bound 1e-10, which is outside the
    half-open interval, passes the check. *)
Lemma threshold_percent_accepts_one_and_a_half :
  is_ok (@threshold_percent Sample.kernel Sample.box (PercentScalar (Fin 1.5)) None
           false false CELL_DATA_FIELD) = true
  /\ _check_percent (Fin 1.5) = Ok (Fin (1.5 / 100))
  /\ _check_percent (Fin 1e-10) = Ok (Fin 1e-10)
  /\ ~ (1e-10 < normalized 1e-10)%Q.
Proof.
  split_and!; [reflexivity.. |]. Qcompare.
Qed.



(** C5, on the box: the axis index 0 raises where the name 'x' slices. *)
Lemma slice_along_axis_numeric_axis_raises_witness :
  @slice_along_axis Sample.kernel Sample.box 5 (PyInt 0) None false = Err TypeError
  /\ is_ok (@slice_along_axis Sample.kernel Sample.box 5 (PyStr "x") None false)
     = true
  /\ @slice_along_axis Sample.kernel Sample.box 5 (PyStr "w") None false
     = Err (AxisNotUnderstood "w").
Proof.
  pose proof (@slice_along_axis_numeric_axis_raises Sample.kernel Sample.box)
    as (_ & Hint & Hname).
  split_and!.
  - apply (Hint 4 0 false 0%Q 10%Q 0%Q 4%Q (-1)%Q 1%Q 0%Q 10%Q);
      first [reflexivity | lia | Qcompare].
  - reflexivity.
  - apply (Hname "w" 5 None false eq_refl).
Defined.

(** C6, on the box: the name '-y' gives the plane normal (0, -1, 0). *)
Lemma symbolic_normals_match_table_witness :
  is_inside_bounds [Fin 5; Fin 2; Fin 0] (bounds Sample.box) = true
  /\ @slice Sample.kernel Sample.box (PyStr "-y") (Some [Fin 5; Fin 2; Fin 0]) false
     = Ok (_get_output
             {| GetInputDataObject := Sample.box;
                GetOutputDataObject :=
                  @vtkCutter Sample.kernel (vtk_object Sample.box)
                    {| GetNormal := (Fin 0, Fin (-1), Fin 0);
                       GetOrigin := (Fin 5, Fin 2, Fin 0) |} false |}
             None POINT_DATA_FIELD).
Proof.
  split; [reflexivity |].
  pose proof (proj1 (@symbolic_normals_match_table Sample.kernel)) as H.
  rewrite Forall_forall in H.
  specialize (H ("-y", (0, -1, 0))%Z).
  cbv beta iota in H.
  destruct H as (_ & _ & _ & _ & H).
  - unfold documented_normals. do 4 apply list_elem_of_further.
    apply list_elem_of_here.
  - exact (H Sample.box (Fin 5) (Fin 2) (Fin 0) false eq_refl).
Defined.

(** C7, on the box: its active scalar is a cell array; and on the box
    without arrays. *)
Lemma contour_requires_point_scalars_witness :
  n_scalars Sample.empty_box = 0
  /\ active_scalar_info Sample.box = (CELL_DATA_FIELD, Some "values")
  /\ @contour Sample.kernel Sample.empty_box (IsoInt 10) None false false true
       POINT_DATA_FIELD
     = Err ContourNoScalarData
  /\ @contour Sample.kernel Sample.box (IsoInt 10) None false false true
       POINT_DATA_FIELD
     = Err (ContourNotPointData (Some "values")).
Proof.
  split; [reflexivity | split; [reflexivity | split]].
  - exact (proj1 (proj1 (@contour_requires_point_scalars Sample.kernel
                           Sample.empty_box (IsoInt 10) None false false true
                           POINT_DATA_FIELD) eq_refl)).
  - refine (proj2 (proj1 (proj2 (@contour_requires_point_scalars Sample.kernel
                                   Sample.box (IsoInt 10) None false false true
                                   POINT_DATA_FIELD))
                     (Some "values") eq_refl eq_refl) _).
    cbn. lia.
Defined.

(** C8, on the box: an origin far outside the box, where [slice] refuses,
    clips. *)
Lemma clip_has_no_bounds_check_witness :
  is_inside_bounds [Fin 100; Fin 2; Fin 0] (bounds Sample.box) = false
  /\ @slice Sample.kernel Sample.box (PyStr "x") (Some [Fin 100; Fin 2; Fin 0])
       false = Err SliceOutsideBounds
  /\ @clip Sample.kernel Sample.box (PyStr "x") (Some [Fin 100; Fin 2; Fin 0]) true
     = Ok (_get_output
             {| GetInputDataObject := Sample.box;
                GetOutputDataObject :=
                  @vtkClipDataSet Sample.kernel (vtk_object Sample.box)
                    {| GetNormal := (Fin 1, Fin 0, Fin 0);
                       GetOrigin := (Fin 100, Fin 2, Fin 0) |} true |}
             None POINT_DATA_FIELD).
Proof.
  split; [reflexivity | split; [reflexivity |]].
  exact (proj2 (proj2 (@clip_has_no_bounds_check Sample.kernel Sample.box
                         (PyStr "x") (Some [Fin 100; Fin 2; Fin 0]) true))
           (Fin 1) (Fin 0) (Fin 0) (Fin 100) (Fin 2) (Fin 0) eq_refl eq_refl).
Defined.

(** C9, on the box: the clipped box keeps the active scalar of the box. *)
Lemma filters_through_get_output_copy_meta_witness :
  exists out,
    @clip Sample.kernel Sample.box (PyStr "z") None true = Ok out
    /\ active_scalar_info out = (CELL_DATA_FIELD, Some "values").
Proof.
  eexists. split; [reflexivity |].
  exact (proj1 (@filters_through_get_output_copy_meta Sample.kernel Sample.box)
           (PyStr "z") None true _ eq_refl).
Defined.

(** The claim C9 as stated fails: the outlines of the box do not carry its
    active scalar designation. *)
Lemma outline_drops_active_scalar :
  active_scalar_info (@outline Sample.kernel Sample.box false)
  <> active_scalar_info Sample.box
  /\ active_scalar_info (@outline_corners Sample.kernel Sample.box (Fin 0.2))
     <> active_scalar_info Sample.box.
Proof. split; discriminate. Qed.

(** C10, on the box: '-Y' clips and slices as '-y' does. *)
Lemma symbolic_normal_case_insensitive_witness :
  lower "-Y" = "-y"
  /\ @clip Sample.kernel Sample.box (PyStr "-Y") None true
     = @clip Sample.kernel Sample.box (PyStr "-y") None true
  /\ @slice Sample.kernel Sample.box (PyStr "X") None false
     = @slice Sample.kernel Sample.box (PyStr "x") None false.
Proof.
  split; [reflexivity | split].
  - exact (proj1 (proj2 (proj2
             (@symbolic_normal_case_insensitive Sample.kernel Sample.box "-y" "-Y"
                None true (ex_intro _ _ eq_refl) eq_refl)))).
  - exact (proj2 (proj2 (proj2
             (@symbolic_normal_case_insensitive Sample.kernel Sample.box "x" "X"
                None false (ex_intro _ _ eq_refl) eq_refl)))).
Defined.

(* ================================================================== *)
(** * Further properties of the filters *)
(* ================================================================== *)

(** ** Planes, [clip] and [slice] *)

Lemma NORMALS_vectors (name : string) (v : list Z) :
  NORMALS !! name = Some v -> exists a b c, v = [a; b; c].
Proof.
  unfold NORMALS. intros H. apply elem_of_list_to_map_2 in H.
  rewrite !elem_of_cons, elem_of_nil in H.
  repeat (destruct H as [[= _ ->] | H]; [eauto |]). destruct H.
Qed.

Lemma usable_normal_resolves (normal : pyval) :
  usable_normal normal
  <-> exists n0 n1 n2 ns, resolve_normal normal = Ok (PySeq (n0 :: n1 :: n2 :: ns)).
Proof.
  destruct normal as [s|v|k]; unfold usable_normal, resolve_normal.
  - split.
    + intros [v Hv]. rewrite Hv.
      destruct (NORMALS_vectors _ _ Hv) as (a & b & c & ->). cbn. eauto.
    + intros (n0 & n1 & n2 & ns & H).
      destruct (NORMALS !! lower s); [eauto | discriminate].
  - split.
    + intros H. destruct v as [|n0 [|n1 [|n2 ns]]]; cbn in H; try lia. eauto.
    + intros (n0 & n1 & n2 & ns & [= ->]). cbn. lia.
  - split; [intros [] | intros (n0 & n1 & n2 & ns & [=])].
Qed.

(** X1.  [_generate_plane] returns exactly when the normal is a sequence
    of numbers and both the normal and the origin have three components or
    more; the plane is made of the first three of each, further components
    are ignored.  An integer normal raises TypeError (it cannot be
    subscripted); a string normal raises IndexError when it has fewer than
    three characters and TypeError otherwise (its characters are not
    numbers); a short sequence or a short origin raises IndexError. *)
Theorem _generate_plane_reads_three_components (normal : pyval) (origin : list float) :
  (forall plane,
      _generate_plane normal origin = Ok plane
      <-> exists n0 n1 n2 ns o0 o1 o2 os,
            normal = PySeq (n0 :: n1 :: n2 :: ns)
            /\ origin = o0 :: o1 :: o2 :: os
            /\ plane = {| GetNormal := (n0, n1, n2); GetOrigin := (o0, o1, o2) |})
  /\ (forall k, normal = PyInt k -> _generate_plane normal origin = Err TypeError)
  /\ (forall s, normal = PyStr s ->
        _generate_plane normal origin
        = if (String.length s <? 3)%nat then Err IndexError else Err TypeError)
  /\ (forall v, normal = PySeq v -> length v < 3 \/ length origin < 3 ->
        _generate_plane normal origin = Err IndexError).
Proof.
  split_and!.
  - intros plane. split.
    + destruct normal as [s|v|k]; [| | discriminate].
      { destruct s as [|c0 [|c1 [|c2 s]]]; discriminate. }
      destruct v as [|n0 [|n1 [|n2 ns]]]; try discriminate.
      destruct origin as [|o0 [|o1 [|o2 os]]]; try discriminate.
      intros [= <-]. eauto 12.
    + intros (n0 & n1 & n2 & ns & o0 & o1 & o2 & os & -> & -> & ->). reflexivity.
  - intros k ->. reflexivity.
  - intros s ->. destruct s as [|c0 [|c1 [|c2 s]]]; reflexivity.
  - intros v -> H.
    destruct v as [|n0 [|n1 [|n2 ns]]]; try reflexivity.
    destruct origin as [|o0 [|o1 [|o2 os]]]; try reflexivity.
    cbn in H. lia.
Qed.

Lemma _generate_plane_is_ok (normal : pyval) (origin : list float) :
  is_ok (_generate_plane normal origin) = true
  <-> (exists n0 n1 n2 ns, normal = PySeq (n0 :: n1 :: n2 :: ns))
      /\ 3 <= length origin.
Proof.
  split.
  - destruct normal as [s|v|k]; [| | discriminate].
    { destruct s as [|c0 [|c1 [|c2 s]]]; discriminate. }
    destruct v as [|n0 [|n1 [|n2 ns]]]; try discriminate.
    destruct origin as [|o0 [|o1 [|o2 os]]]; try discriminate.
    intros _. split; [eauto | cbn; lia].
  - intros [(n0 & n1 & n2 & ns & ->) H].
    destruct origin as [|o0 [|o1 [|o2 os]]]; cbn in H; try lia. reflexivity.
Qed.

Section ClipSlice.

Context `{K : VtkKernel}.

(** X2.  [clip] returns exactly when the normal is usable (a name whose
    lowercase is in the table, or a sequence of three numbers or more) and
    the origin, or the center that replaces a missing origin, has three
    coordinates or more. *)
Theorem clip_succeeds_iff (dataset : Dataset) (normal : pyval)
    (origin : option (list float)) (invert : bool) :
  is_ok (clip dataset normal origin invert) = true
  <-> usable_normal normal /\ 3 <= length (origin_or_center dataset origin).
Proof.
  rewrite usable_normal_resolves. unfold clip.
  fold (origin_or_center dataset origin).
  destruct (resolve_normal normal) as [n|e]; cbn [mbind result_bind].
  - pose proof (_generate_plane_is_ok n (origin_or_center dataset origin)) as Hp.
    destruct (_generate_plane n _) as [p|e]; cbn [mbind result_bind is_ok] in *.
    + destruct Hp as [(Hn & Hlen) _]; [reflexivity |].
      destruct Hn as (n0 & n1 & n2 & ns & ->). split; [| reflexivity]. eauto 8.
    + split; [discriminate |].
      intros [(n0 & n1 & n2 & ns & [= ->]) Hlen].
      apply Hp. eauto 8.
  - split; [discriminate | intros [(n0 & n1 & n2 & ns & [=]) _]].
Qed.

(** X3.  The outcomes of [slice], in the order the code decides them: an
    unknown normal name raises KeyError wherever the origin is; otherwise
    an origin that fails the bounds test raises the bounds error, even
    when the normal could not make a plane; and [slice] returns exactly
    when [clip] would return and the origin passes the bounds test. *)
Theorem slice_outcomes (dataset : Dataset) (normal : pyval)
    (origin : option (list float)) (triangles : bool) :
  let o := origin_or_center dataset origin in
  (forall s, normal = PyStr s -> NORMALS !! lower s = None ->
     slice dataset normal origin triangles = Err (KeyError (lower s)))
  /\ (is_ok (resolve_normal normal) = true ->
      is_inside_bounds o (bounds dataset) = false ->
      slice dataset normal origin triangles = Err SliceOutsideBounds)
  /\ (forall invert,
        is_ok (slice dataset normal origin triangles) = true
        <-> is_ok (clip dataset normal origin invert) = true
            /\ is_inside_bounds o (bounds dataset) = true).
Proof.
  intros o. subst o. split_and!.
  - intros s -> Hs. unfold slice, resolve_normal. now rewrite Hs.
  - intros Hn Hin. unfold slice. fold (origin_or_center dataset origin).
    destruct (resolve_normal normal); [| discriminate].
    cbn [mbind result_bind]. now rewrite Hin.
  - intros invert. unfold slice, clip. fold (origin_or_center dataset origin).
    destruct (resolve_normal normal) as [n|e]; cbn [mbind result_bind];
      [| split; [discriminate | intros [[=] _]]].
    destruct (is_inside_bounds _ _); cbn [negb].
    + destruct (_generate_plane n _); cbn; tauto.
    + split; [discriminate | intros [_ [=]]].
Qed.

End ClipSlice.

(** ** The three orthogonal slices *)

Section Orthogonal.

Context `{K : VtkKernel}.

(** X4.  On a dataset with six bounds, [slice_orthogonal] slices at one
    point, each coordinate given or taken from the center.  When the point
    passes the bounds test the result has exactly the three entries
    0 'YZ', 1 'XZ', 2 'XY', the slices through that point with the normals
    'x', 'y', 'z'; when it does not, the first slice raises the bounds
    error and nothing is returned. *)
Theorem slice_orthogonal_outcomes (dataset : Dataset) (x y z : option float)
    (triangles : bool) (x0 x1 y0 y1 z0 z1 : Q) :
  bounds dataset = [Fin x0; Fin x1; Fin y0; Fin y1; Fin z0; Fin z1] ->
  let p := [ default (Fin ((x0 + x1) / 2)) x;
             default (Fin ((y0 + y1) / 2)) y;
             default (Fin ((z0 + z1) / 2)) z ] in
  (is_inside_bounds p (bounds dataset) = true ->
     exists (mb : MultiBlock) yz xz xy,
       slice_orthogonal dataset x y z triangles = Ok mb
       /\ size mb = 3
       /\ mb !! 0 = Some ("YZ", yz)
       /\ mb !! 1 = Some ("XZ", xz)
       /\ mb !! 2 = Some ("XY", xy)
       /\ slice dataset (PyStr "x") (Some p) triangles = Ok yz
       /\ slice dataset (PyStr "y") (Some p) triangles = Ok xz
       /\ slice dataset (PyStr "z") (Some p) triangles = Ok xy)
  /\ (is_inside_bounds p (bounds dataset) = false ->
      slice_orthogonal dataset x y z triangles = Err SliceOutsideBounds).
Proof.
  intros Hb p.
  assert (Hp : forall (k : result MultiBlock -> Prop),
             k (yz ← slice dataset (PyStr "x") (Some p) triangles;
                xz ← slice dataset (PyStr "y") (Some p) triangles;
                xy ← slice dataset (PyStr "z") (Some p) triangles;
                Ok (MultiBlock_setitem
                      (MultiBlock_setitem
                         (MultiBlock_setitem ∅ 0 "YZ" yz) 1 "XZ" xz) 2 "XY" xy)) ->
             k (slice_orthogonal dataset x y z triangles)).
  { intros k Hk. unfold slice_orthogonal.
    rewrite (center_of_bounds _ _ _ _ _ _ _ Hb).
    destruct x, y, z; exact Hk. }
  assert (Hs : forall name n0 n1 n2,
             resolve_normal (PyStr name) = Ok (PySeq [n0; n1; n2]) ->
             slice dataset (PyStr name) (Some p) triangles
             = if is_inside_bounds p (bounds dataset)
               then Ok (_get_output
                          {| GetInputDataObject := dataset;
                             GetOutputDataObject :=
                               vtkCutter (vtk_object dataset)
                                 {| GetNormal := (n0, n1, n2);
                                    GetOrigin :=
                                      (default (Fin ((x0 + x1) / 2)) x,
                                       default (Fin ((y0 + y1) / 2)) y,
                                       default (Fin ((z0 + z1) / 2)) z) |}
                                 triangles |}
                          None POINT_DATA_FIELD)
               else Err SliceOutsideBounds).
  { intros name n0 n1 n2 Hn. unfold slice. rewrite Hn. cbn [mbind result_bind].
    now destruct (is_inside_bounds p (bounds dataset)). }
  pose proof (Hs "x" _ _ _ eq_refl) as Hx.
  pose proof (Hs "y" _ _ _ eq_refl) as Hy.
  pose proof (Hs "z" _ _ _ eq_refl) as Hz.
  split; intros Hin; rewrite Hin in Hx, Hy, Hz.
  - eexists _, _, _, _. split; [| split; [| split_and!; [| | | exact Hx | exact Hy | exact Hz]]].
    + apply Hp. rewrite Hx, Hy, Hz. reflexivity.
    + unfold MultiBlock_setitem. reflexivity.
    + reflexivity.
    + reflexivity.
    + reflexivity.
  - apply Hp. now rewrite Hx.
Qed.

End Orthogonal.

(** ** Edge cases of [slice_along_axis] *)


Lemma bounds_lookup_Fin dataset (l : list Q) (i : nat) (q : Q) :
  bounds dataset = Fin <$> l -> l !! i = Some q ->
  py_getitem (bounds dataset) (Z.of_nat i) = Ok (Fin q).
Proof.
  intros Hb Hq. apply py_getitem_nat. now rewrite Hb, list_lookup_fmap, Hq.
Qed.

Section AlongAxisEdges.

Context `{K : VtkKernel}.

(** The call up to the loop, on six bounds and a symbolic or numeric axis
    0, 1 or 2, with the tolerance resolved to [tol]. *)
Lemma slice_along_axis_unfold dataset n axis (ax : nat) tolerance triangles
    (x0 x1 y0 y1 z0 z1 lo hi tol : Q) :
  (axis = PyInt (Z.of_nat ax)
   \/ exists name, axis = PyStr name /\ axes !! name = Some (Z.of_nat ax)) ->
  bounds dataset = [Fin x0; Fin x1; Fin y0; Fin y1; Fin z0; Fin z1] ->
  [x0; x1; y0; y1; z0; z1] !! (2 * ax) = Some lo ->
  [x0; x1; y0; y1; z0; z1] !! (2 * ax + 1) = Some hi ->
  match tolerance with
  | None => tol = ((hi - lo) * 0.01)%Q
  | Some t => t = Fin tol
  end ->
  slice_along_axis dataset n axis tolerance triangles
  = slice_along_axis_loop dataset axis (Z.of_nat ax)
      (Fin <$> linspace_Q (lo + tol) (hi - tol) n) triangles (seq 0 n)
      (center dataset) ∅.
Proof.
  intros Haxis Hb Hlo Hhi Htol.
  pose proof (bounds_lookup_Fin dataset [x0; x1; y0; y1; z0; z1] _ _ Hb Hlo) as Hblo.
  pose proof (bounds_lookup_Fin dataset [x0; x1; y0; y1; z0; z1] _ _ Hb Hhi) as Hbhi.
  unfold slice_along_axis.
  assert (Hax : match axis with
                | PyStr s => match axes !! s with
                             | Some ax => Ok ax
                             | None => Err (AxisNotUnderstood s)
                             end
                | PySeq _ => Err TypeError
                | PyInt k => Ok k
                end = Ok (Z.of_nat ax)).
  { destruct Haxis as [-> | (name & -> & Hname)]; [reflexivity | now rewrite Hname]. }
  rewrite Hax. cbn [mbind result_bind].
  replace (Z.of_nat ax * 2 + 1)%Z with (Z.of_nat (2 * ax + 1)) by lia.
  replace (Z.of_nat ax * 2)%Z with (Z.of_nat (2 * ax)) by lia.
  rewrite Hblo, Hbhi.
  assert (Ht : match tolerance with
               | Some t => Ok t
               | None => Ok ((Fin hi - Fin lo) * Fin 0.01)%float
               end = Ok (Fin tol)).
  { destruct tolerance as [t|]; now subst. }
  cbn [mbind result_bind]. rewrite Ht. cbn [mbind result_bind].
  change (Fin lo + Fin tol)%float with (Fin (lo + tol)).
  change (Fin hi - Fin tol)%float with (Fin (hi - tol)).
  now rewrite linspace_Fin.
Qed.



(** X6.  The smallest counts.  With [n = 0] no slice is attempted and the
    result is the empty MultiBlock, also for a numeric axis.  With [n = 1]
    the single slice 'slice00' is taken at [bound_min + tol], next to the
    lower bound, not at the center. *)
Theorem slice_along_axis_small_counts (dataset : Dataset) (axis : pyval) (ax : nat)
    (triangles : bool) (x0 x1 y0 y1 z0 z1 lo hi : Q) :
  (axis = PyInt (Z.of_nat ax)
   \/ exists name, axis = PyStr name /\ axes !! name = Some (Z.of_nat ax)) ->
  bounds dataset = [Fin x0; Fin x1; Fin y0; Fin y1; Fin z0; Fin z1] ->
  [x0; x1; y0; y1; z0; z1] !! (2 * ax) = Some lo ->
  [x0; x1; y0; y1; z0; z1] !! (2 * ax + 1) = Some hi ->
  slice_along_axis dataset 0 axis None triangles = Ok ∅
  /\ (forall name, axis = PyStr name ->
        (x0 <= x1)%Q -> (y0 <= y1)%Q -> (z0 <= z1)%Q -> (lo <= hi)%Q ->
        exists d,
          slice dataset (PyStr name)
            (Some (<[ax := Fin (lo + (hi - lo) * 0.01)]> (center dataset)))
            triangles = Ok d
          /\ slice_along_axis dataset 1 axis None triangles
             = Ok {[ 0 := ("slice00", d) ]}).
Proof.
  intros Haxis Hb Hlo Hhi. split.
  - now rewrite (slice_along_axis_unfold dataset 0 axis ax None triangles
                   x0 x1 y0 y1 z0 z1 lo hi _ Haxis Hb Hlo Hhi eq_refl).
  - intros name -> Hx Hy Hz Hle.
    destruct Haxis as [[=] | (name' & [= <-] & Hname)].
    assert (Hax : ax < 3) by (apply axes_names in Hname; lia).
    pose proof (slice_on_axis dataset name ax triangles x0 x1 y0 y1 z0 z1 lo hi
                  (lo + (hi - lo) * 0.01) Hname Hb Hx Hy Hz Hlo Hhi ltac:(lra))
      as Hok.
    destruct (slice dataset (PyStr name) _ triangles) as [d|] eqn:Hd;
      [| discriminate].
    exists d. split; [reflexivity |].
    rewrite (slice_along_axis_unfold dataset 1 (PyStr name) ax None triangles
               x0 x1 y0 y1 z0 z1 lo hi _ ltac:(eauto) Hb Hlo Hhi eq_refl).
    cbn [linspace_Q fmap list_fmap seq slice_along_axis_loop].
    change (py_getitem [Fin (lo + (hi - lo) * 0.01)] (Z.of_nat 0))
      with (Ok (Fin (lo + (hi - lo) * 0.01)) : result float).
    cbn [mbind result_bind].
    rewrite py_setitem_nat
      by (rewrite (center_of_bounds _ _ _ _ _ _ _ Hb); cbn; lia).
    cbn [mbind result_bind]. rewrite Hd. reflexivity.
Qed.

End AlongAxisEdges.

(** ** Plain thresholds *)

Section ThresholdPlain.

Context `{K : VtkKernel}.

Lemma threshold_unresolved dataset value scalars invert continuous preference :
  get_scalar dataset (scalars_or_active dataset scalars) preference = None ->
  threshold dataset value scalars invert continuous preference
  = Err NoArraysToThreshold.
Proof.
  intros H. unfold threshold. cbn [threshold_rec].
  fold (scalars_or_active dataset scalars). now rewrite H.
Qed.

(** The plain path of [threshold] on a resolved array. *)
Lemma threshold_plain dataset value scalars invert continuous preference arr fld :
  get_scalar dataset (scalars_or_active dataset scalars) preference = Some (arr, fld) ->
  (forall vs, value = ValueIterable vs -> invert = false) ->
  threshold dataset value scalars invert continuous preference
  = (criterion ←
       match value with
       | ValueNone =>
           let '(dmin, dmax) :=
             get_data_range dataset (scalars_or_active dataset scalars)
               CELL_DATA_FIELD in
           Ok (ThresholdBetween dmin dmax)
       | ValueScalar v =>
           Ok (if invert then ThresholdByLower v else ThresholdByUpper v)
       | ValueIterable vs =>
           if negb (length vs =? 2)%nat then Err (BadValueRange vs)
           else v0 ← py_getitem vs 0; v1 ← py_getitem vs 1;
                Ok (ThresholdBetween v0 v1)
       end;
     Ok (_get_output
           {| GetInputDataObject := dataset;
              GetOutputDataObject :=
                vtkThreshold (vtk_object dataset) fld
                  (scalars_or_active dataset scalars) continuous criterion |}
           None POINT_DATA_FIELD)).
Proof.
  intros H Hinv. unfold threshold. cbn [threshold_rec].
  fold (scalars_or_active dataset scalars). rewrite H.
  destruct value as [|v|vs]; try reflexivity.
  rewrite (Hinv vs eq_refl). reflexivity.
Qed.

(** The inverted path of [threshold], for a range of any length. *)
Lemma threshold_inverted_any dataset vs scalars continuous preference :
  threshold dataset (ValueIterable vs) scalars true continuous preference
  = match get_scalar dataset (scalars_or_active dataset scalars) preference with
    | None => Err NoArraysToThreshold
    | Some (arr, _) =>
        lo ← np.nanmin arr;
        hi ← np.nanmax arr;
        v0 ← py_getitem vs 0;
        t1 ← threshold dataset (ValueIterable [lo; v0]) scalars false continuous
               preference;
        v1 ← py_getitem vs 1;
        t2 ← threshold dataset (ValueIterable [v1; hi]) scalars false continuous
               preference;
        Ok (merged t1 t2)
    end.
Proof.
  unfold threshold at 1.
  change (threshold_rec 2 dataset (ValueIterable vs) scalars true continuous
            preference)
    with (match get_scalar dataset (scalars_or_active dataset scalars) preference with
          | None => Err NoArraysToThreshold
          | Some (arr, _) =>
              lo ← np.nanmin arr;
              hi ← np.nanmax arr;
              v0 ← py_getitem vs 0;
              t1 ← threshold_rec 1 dataset (ValueIterable [lo; v0])
                     (scalars_or_active dataset scalars) false continuous preference;
              v1 ← py_getitem vs 1;
              t2 ← threshold_rec 1 dataset (ValueIterable [v1; hi])
                     (scalars_or_active dataset scalars) false continuous preference;
              Ok (merged t1 t2)
          end).
  destruct (get_scalar _ _ _) as [[arr fld]|]; [| reflexivity].
  destruct (np.nanmin arr) as [lo|]; [| reflexivity].
  destruct (np.nanmax arr) as [hi|]; [| reflexivity].
  destruct (py_getitem vs 0) as [v0|]; [| reflexivity].
  cbn [mbind result_bind].
  rewrite <- (threshold_rec_plain 1 dataset (ValueIterable [lo; v0])).
  change (threshold_rec 2) with threshold.
  rewrite threshold_scalars_resolved.
  destruct (threshold dataset (ValueIterable [lo; v0]) scalars false continuous
              preference) as [t1|]; [| reflexivity].
  destruct (py_getitem vs 1) as [v1|]; [| reflexivity].
  cbn [mbind result_bind].
  rewrite <- (threshold_rec_plain 1 dataset (ValueIterable [v1; hi])).
  change (threshold_rec 2) with threshold.
  now rewrite threshold_scalars_resolved.
Qed.

(** X7.  With no value, [threshold] is the plain range threshold over the
    data range that [get_data_range] reports for the scalars (asked with
    its default, cell, preference), and [invert] has no effect. *)
Theorem threshold_without_value (dataset : Dataset) (scalars : option string)
    (invert continuous : bool) (preference : field) :
  let '(dmin, dmax) :=
    get_data_range dataset (scalars_or_active dataset scalars) CELL_DATA_FIELD in
  threshold dataset ValueNone scalars invert continuous preference
  = threshold dataset (ValueIterable [dmin; dmax]) scalars false continuous
      preference
  /\ threshold dataset ValueNone scalars true continuous preference
     = threshold dataset ValueNone scalars false continuous preference.
Proof.
  destruct (get_data_range _ _ _) as [dmin dmax] eqn:Hr.
  destruct (get_scalar dataset (scalars_or_active dataset scalars) preference)
    as [[arr fld]|] eqn:Hget.
  - rewrite !(threshold_plain _ _ _ _ _ _ arr fld Hget) by (intros; congruence).
    rewrite Hr. split; reflexivity.
  - now rewrite !threshold_unresolved.
Qed.

(** X8.  The length of a range is checked on the plain path only.  On a
    resolved array a non-inverted range whose length is not two is
    refused with the 'Value range must be length ...' error; an inverted
    range is never measured: extra elements beyond the first two are
    ignored, and a range of fewer than two elements (the array not being
    empty) raises IndexError instead. *)
Theorem threshold_range_length (dataset : Dataset) (scalars : option string)
    (continuous : bool) (preference : field) (arr : array) (fld : field) :
  get_scalar dataset (scalars_or_active dataset scalars) preference = Some (arr, fld) ->
  (forall vs, length vs <> 2 ->
     threshold dataset (ValueIterable vs) scalars false continuous preference
     = Err (BadValueRange vs))
  /\ (forall v0 v1 rest,
        threshold dataset (ValueIterable (v0 :: v1 :: rest)) scalars true continuous
          preference
        = threshold dataset (ValueIterable [v0; v1]) scalars true continuous
            preference)
  /\ (forall vs, length vs < 2 -> arr <> [] ->
        threshold dataset (ValueIterable vs) scalars true continuous preference
        = Err IndexError).
Proof.
  intros Hget. split_and!.
  - intros vs Hlen.
    rewrite (threshold_plain _ _ _ _ _ _ arr fld Hget) by (intros; congruence).
    destruct (length vs =? 2)%nat eqn:E; [apply Nat.eqb_eq in E; lia |].
    reflexivity.
  - intros v0 v1 rest. now rewrite !threshold_inverted_any.
  - intros vs Hlen Harr. rewrite threshold_inverted_any, Hget.
    destruct arr as [|a arr]; [congruence |].
    cbn [np.nanmin np.nanmax mbind result_bind].
    destruct vs as [|v0 [|v1 vs]]; [reflexivity | | cbn in Hlen; lia].
    change (py_getitem [v0] 0) with (Ok v0 : result float).
    cbn [mbind result_bind].
    rewrite (threshold_range_plain _ _ _ _ _ _ _ _ Hget). reflexivity.
Qed.

End ThresholdPlain.

Section ThresholdErrors.

Context `{K : VtkKernel}.

(** X9.  Every way [threshold] can fail.  It raises 'No arrays present'
    exactly when no array resolves.  On a resolved array a scalar value or
    no value always returns; a non-inverted range fails only by its
    length; an inverted range fails only on an empty array (the reduction
    raises ValueError) or on fewer than two elements (IndexError).  The
    nesting of calls never runs out. *)
Theorem threshold_failures (dataset : Dataset) (value : threshold_value)
    (scalars : option string) (invert continuous : bool) (preference : field) :
  let name := scalars_or_active dataset scalars in
  let run := threshold dataset value scalars invert continuous preference in
  (run = Err NoArraysToThreshold <-> get_scalar dataset name preference = None)
  /\ (forall arr fld,
        get_scalar dataset name preference = Some (arr, fld) ->
        (forall vs, value <> ValueIterable vs) ->
        is_ok run = true)
  /\ (forall e, run = Err e ->
        e <> RecursionError
        /\ ((e = NoArraysToThreshold /\ get_scalar dataset name preference = None)
            \/ (exists vs, value = ValueIterable vs /\ invert = false
                  /\ length vs <> 2 /\ e = BadValueRange vs)
            \/ (exists vs arr fld, value = ValueIterable vs /\ invert = true
                  /\ get_scalar dataset name preference = Some (arr, fld)
                  /\ ((arr = [] /\ e = ValueError)
                      \/ (length vs < 2 /\ e = IndexError))))).
Proof.
  intros name run. subst name run.
  assert (Hmain : forall e,
             threshold dataset value scalars invert continuous preference = Err e ->
             (e = NoArraysToThreshold
              /\ get_scalar dataset (scalars_or_active dataset scalars) preference
                 = None)
             \/ (exists vs, value = ValueIterable vs /\ invert = false
                   /\ length vs <> 2 /\ e = BadValueRange vs)
             \/ (exists vs arr fld, value = ValueIterable vs /\ invert = true
                   /\ get_scalar dataset (scalars_or_active dataset scalars)
                        preference = Some (arr, fld)
                   /\ ((arr = [] /\ e = ValueError)
                       \/ (length vs < 2 /\ e = IndexError)))).
  { intros e H.
    destruct (get_scalar dataset (scalars_or_active dataset scalars) preference)
      as [[arr fld]|] eqn:Hget;
      [| rewrite threshold_unresolved in H by exact Hget; injection H as <-; auto].
    right.
    destruct value as [|v|vs].
    - rewrite (threshold_plain _ _ _ _ _ _ arr fld Hget) in H
        by (intros; congruence).
      destruct (get_data_range _ _ _); discriminate.
    - rewrite (threshold_plain _ _ _ _ _ _ arr fld Hget) in H
        by (intros; congruence).
      discriminate.
    - destruct invert.
      + right. exists vs, arr, fld. split_and!; try reflexivity.
        rewrite threshold_inverted_any, Hget in H.
        destruct arr as [|a arr]; [injection H as <-; auto |].
        cbn [np.nanmin np.nanmax mbind result_bind] in H.
        right.
        destruct vs as [|v0 [|v1 vs]].
        * injection H as <-. cbn. split; [lia | reflexivity].
        * change (py_getitem [v0] 0) with (Ok v0 : result float) in H.
          cbn [mbind result_bind] in H.
          rewrite (threshold_range_plain _ _ _ _ _ _ _ _ Hget) in H.
          injection H as <-. cbn. split; [lia | reflexivity].
        * change (py_getitem (v0 :: v1 :: vs) 0) with (Ok v0 : result float) in H.
          change (py_getitem (v0 :: v1 :: vs) 1) with (Ok v1 : result float) in H.
          cbn [mbind result_bind] in H.
          rewrite !(threshold_range_plain _ _ _ _ _ _ _ _ Hget) in H.
          discriminate.
      + left. exists vs. split_and!; try reflexivity.
        * rewrite (threshold_plain _ _ _ _ _ _ arr fld Hget) in H
            by (intros; congruence).
          destruct vs as [|v0 [|v1 [|v2 vs]]]; cbn; try lia. discriminate.
        * rewrite (threshold_plain _ _ _ _ _ _ arr fld Hget) in H
            by (intros; congruence).
          destruct vs as [|v0 [|v1 [|v2 vs]]]; try (injection H as <-; reflexivity).
          discriminate. }
  split_and!.
  - split.
    + intros H. destruct (Hmain _ H) as [[_ Hn] | [H' | H']]; [exact Hn | |].
      * destruct H' as (vs & _ & _ & _ & [=]).
      * destruct H' as (vs & arr & fld & _ & _ & _ & [[_ [=]] | [_ [=]]]).
    + apply threshold_unresolved.
  - intros arr fld Hget Hval.
    destruct (threshold dataset value scalars invert continuous preference)
      as [d|e] eqn:H; [reflexivity |].
    destruct (Hmain _ eq_refl) as [[_ Hn] | [H' | H']]; [congruence | |].
    + destruct H' as (vs & -> & _). now destruct (Hval vs).
    + destruct H' as (vs & ? & ? & -> & _). now destruct (Hval vs).
  - intros e H. split; [| now apply Hmain].
    destruct (Hmain _ H) as [[-> _] | [H' | H']]; [discriminate | |].
    + destruct H' as (vs & _ & _ & _ & ->). discriminate.
    + destruct H' as (vs & arr & fld & _ & _ & _ & [[_ ->] | [_ ->]]);
        discriminate.
Qed.

End ThresholdErrors.

(** ** Percentages *)

Lemma normalized_range (q : Q) :
  (1 <= q < 100)%Q -> (1e-10 <= q / 100 < 1)%Q.
Proof.
  intros H. pose proof tiny_value as Ht.
  set (tiny := 1e-10%Q) in *.
  unfold Qdiv. change (/ 100)%Q with (1 # 100)%Q. lra.
Qed.

Lemma _check_percent_in_range (q : Q) :
  (1e-10 <= normalized q <= 1)%Q ->
  _check_percent (Fin q) = Ok (Fin (normalized q)).
Proof.
  intros [Hlo Hhi]. rewrite _check_percent_spec. unfold normalized in *.
  destruct (Qle_bool 1 q).
  - apply Qle_bool_true in Hhi. now rewrite Hhi.
  - apply Qle_bool_true in Hlo. now rewrite Hlo.
Qed.

Section Percentages.

Context `{K : VtkKernel}.

(** X10.  A percentage from 1 up to, but not including, 100 means the
    same as its hundredth: the check returns the same fraction for [q] and
    for [q / 100], and so [threshold_percent] returns the same result,
    for a single percentage and for a pair.  The reading changes at the
    ends: 100 is the whole range, while 1 is one per cent. *)
Theorem threshold_percent_reads_per_cent (q : Q) :
  (1 <= q < 100)%Q ->
  _check_percent (Fin q) = Ok (Fin (q / 100))
  /\ _check_percent (Fin (q / 100)) = Ok (Fin (q / 100))
  /\ (forall dataset scalars invert continuous preference,
        threshold_percent dataset (PercentScalar (Fin q)) scalars invert continuous
          preference
        = threshold_percent dataset (PercentScalar (Fin (q / 100))) scalars invert
            continuous preference)
  /\ (forall dataset p scalars invert continuous preference,
        threshold_percent dataset (PercentIterable [p; Fin q]) scalars invert
          continuous preference
        = threshold_percent dataset (PercentIterable [p; Fin (q / 100)]) scalars
            invert continuous preference)
  /\ _check_percent (Fin 100) = Ok (Fin (100 / 100))
  /\ _check_percent (Fin 1) = Ok (Fin (1 / 100)).
Proof.
  intros Hq. destruct (normalized_range q Hq) as [Hlo Hhi].
  assert (H1 : _check_percent (Fin q) = Ok (Fin (q / 100))).
  { rewrite _check_percent_spec.
    assert (E1 : Qle_bool 1 q = true) by (apply Qle_bool_true; tauto).
    assert (E2 : Qle_bool (q / 100) 1 = true)
      by (apply Qle_bool_true, Qlt_le_weak, Hhi).
    now rewrite E1, E2. }
  assert (H2 : _check_percent (Fin (q / 100)) = Ok (Fin (q / 100))).
  { rewrite _check_percent_spec.
    assert (E1 : Qle_bool 1 (q / 100) = false) by (apply Qle_bool_false, Hhi).
    assert (E2 : Qle_bool 1e-10 (q / 100) = true) by (apply Qle_bool_true, Hlo).
    now rewrite E1, E2. }
  split_and!; [exact H1 | exact H2 | | | reflexivity | reflexivity].
  - intros. unfold threshold_percent, _get_val. now rewrite H1, H2.
  - intros. unfold threshold_percent, _get_val.
    change (py_getitem [p; Fin q] 0) with (Ok p : result float).
    change (py_getitem [p; Fin q] 1) with (Ok (Fin q) : result float).
    change (py_getitem [p; Fin (q / 100)] 0) with (Ok p : result float).
    change (py_getitem [p; Fin (q / 100)] 1) with (Ok (Fin (q / 100)) : result float).
    cbn [mbind result_bind]. now rewrite H1, H2.
Qed.

(** X11.  Accepted percentages become threshold values by the formula
    of [_get_val]: [threshold_percent] is [threshold] at the value
    [dmin + p * (dmax - dmin)], [p] the normalised percentage, for a single
    percentage, and at the pair of such values for a pair.  On a data
    range [dmin <= dmax] the value is not below [dmin], and percentages in
    order give values in order. *)
Theorem threshold_percent_value_from_range (dataset : Dataset) (q0 q1 dmin dmax : Q)
    (scalars : option string) (invert continuous : bool) (preference : field) :
  get_data_range dataset (scalars_or_active dataset scalars) preference
  = (Fin dmin, Fin dmax) ->
  (dmin <= dmax)%Q ->
  (1e-10 <= normalized q0 <= 1)%Q ->
  (1e-10 <= normalized q1 <= 1)%Q ->
  let value q := (Fin dmin + Fin (normalized q) * (Fin dmax - Fin dmin))%float in
  _get_val (Fin q0) (Fin dmin) (Fin dmax) = Ok (value q0)
  /\ threshold_percent dataset (PercentScalar (Fin q0)) scalars invert continuous
       preference
     = threshold dataset (ValueScalar (value q0)) scalars invert continuous
         preference
  /\ threshold_percent dataset (PercentIterable [Fin q0; Fin q1]) scalars invert
       continuous preference
     = threshold dataset (ValueIterable [value q0; value q1]) scalars invert
         continuous preference
  /\ (Fin dmin <=? value q0)%float = true
  /\ ((normalized q0 <= normalized q1)%Q -> (value q0 <=? value q1)%float = true).
Proof.
  intros Hr Hd Hq0 Hq1 value.
  assert (Hv : forall q, (1e-10 <= normalized q <= 1)%Q ->
                 _get_val (Fin q) (Fin dmin) (Fin dmax) = Ok (value q)).
  { intros q Hq. unfold _get_val. now rewrite (_check_percent_in_range q Hq). }
  assert (Hp : (0 <= normalized q0)%Q).
  { pose proof tiny_value as Ht. set (tiny := 1e-10%Q) in *. lra. }
  split_and!.
  - now apply Hv.
  - unfold threshold_percent. fold (scalars_or_active dataset scalars).
    rewrite Hr, (Hv q0 Hq0). reflexivity.
  - unfold threshold_percent. fold (scalars_or_active dataset scalars).
    rewrite Hr.
    change (py_getitem [Fin q0; Fin q1] 0) with (Ok (Fin q0) : result float).
    change (py_getitem [Fin q0; Fin q1] 1) with (Ok (Fin q1) : result float).
    cbn [mbind result_bind]. rewrite (Hv q0 Hq0). cbn [mbind result_bind].
    rewrite (Hv q1 Hq1). reflexivity.
  - unfold value. cbn [Float.add Float.mul Float.sub Float.lift2].
    unfold Float.le, Float.cmp. apply Qle_bool_iff. nra.
  - intros Hle. unfold value. cbn [Float.add Float.mul Float.sub Float.lift2].
    unfold Float.le, Float.cmp. apply Qle_bool_iff. nra.
Qed.

End Percentages.

(** ** Elevation *)

Section Elevation.

Context `{K : VtkKernel}.

(** X12.  The projection line of [elevation] on a dataset with six
    bounds: a missing low point is the center lowered to [zmin], a missing
    high point the center raised to [zmax]; and with no scalar range given
    the range is made of the third coordinates of the two points in use,
    so by default it is [(zmin, zmax)].  The points in use have three
    coordinates each; the result is the output of the elevation filter
    under the bookkeeping of the input, on which 'Elevation' is set as the
    active point scalar when [set_active] is on. *)
Theorem elevation_defaults (dataset : Dataset) (low_point high_point : option (list float))
    (preference : field) (set_active : bool) (x0 x1 y0 y1 z0 z1 : Q)
    (l0 l1 l2 h0 h1 h2 : float) :
  bounds dataset = [Fin x0; Fin x1; Fin y0; Fin y1; Fin z0; Fin z1] ->
  default [Fin ((x0 + x1) / 2); Fin ((y0 + y1) / 2); Fin z0] low_point
  = [l0; l1; l2] ->
  default [Fin ((x0 + x1) / 2); Fin ((y0 + y1) / 2); Fin z1] high_point
  = [h0; h1; h2] ->
  elevation dataset low_point high_point RangeNone preference set_active
  = Ok (let out :=
          {| vtk_object :=
               vtkElevationFilter (vtk_object dataset) (l2, h2)
                 (l0, l1, l2) (h0, h1, h2);
             _active_scalar_info := active_scalar_info dataset |} in
        if set_active then set_active_scalar out "Elevation" POINT_DATA_FIELD
        else out).
Proof.
  intros Hb Hl Hh. unfold elevation.
  rewrite (center_of_bounds _ _ _ _ _ _ _ Hb), Hb.
  assert (Hlow : match low_point with
                 | Some p => Ok p
                 | None =>
                     b ← py_getitem
                           [Fin x0; Fin x1; Fin y0; Fin y1; Fin z0; Fin z1] 4;
                     py_setitem
                       [Fin ((x0 + x1) / 2); Fin ((y0 + y1) / 2); Fin ((z0 + z1) / 2)]
                       2 b
                 end = Ok [l0; l1; l2]).
  { destruct low_point; cbn in Hl; now rewrite <- Hl. }
  assert (Hhigh : match high_point with
                  | Some p => Ok p
                  | None =>
                      b ← py_getitem
                            [Fin x0; Fin x1; Fin y0; Fin y1; Fin z0; Fin z1] 5;
                      py_setitem
                        [Fin ((x0 + x1) / 2); Fin ((y0 + y1) / 2); Fin ((z0 + z1) / 2)]
                        2 b
                  end = Ok [h0; h1; h2]).
  { destruct high_point; cbn in Hh; now rewrite <- Hh. }
  rewrite Hlow, Hhigh. destruct set_active; reflexivity.
Qed.

(** X13.  How [elevation] validates its arguments, for given low and high
    points, in the order the code does.  The scalar range comes first: a
    sequence whose length is not two fails the length assertion and an
    argument of another type is refused as not understood, whatever the
    points are.  With a range of two numbers the call returns exactly when
    both points have exactly three coordinates, and otherwise raises the
    TypeError of the point setters.  With no range the third coordinate of
    each point is read first: a point shorter than three raises
    IndexError, a longer one TypeError in the setter, and the call returns
    exactly when both points have exactly three coordinates. *)
Theorem elevation_scalar_range (dataset : Dataset) (lp hp : list float)
    (preference : field) (set_active : bool) :
  let run rng :=
    elevation dataset (Some lp) (Some hp) rng preference set_active in
  (forall rng, length rng <> 2 ->
      run (RangeIterable rng) = Err ScalarRangeLength)
  /\ run RangeOther = Err ScalarRangeNotUnderstood
  /\ (forall a b,
        (is_ok (run (RangeIterable [a; b])) = true
         <-> length lp = 3 /\ length hp = 3)
        /\ (forall e, run (RangeIterable [a; b]) = Err e -> e = TypeError)
        /\ (forall l0 l1 l2 h0 h1 h2,
              lp = [l0; l1; l2] -> hp = [h0; h1; h2] ->
              run (RangeIterable [a; b])
              = Ok (let out :=
                      {| vtk_object :=
                           vtkElevationFilter (vtk_object dataset) (a, b)
                             (l0, l1, l2) (h0, h1, h2);
                         _active_scalar_info := active_scalar_info dataset |} in
                    if set_active
                    then set_active_scalar out "Elevation" POINT_DATA_FIELD
                    else out)))
  /\ (is_ok (run RangeNone) = true <-> length lp = 3 /\ length hp = 3)
  /\ (forall e, run RangeNone = Err e ->
        (e = IndexError /\ (length lp < 3 \/ length hp < 3))
        \/ (e = TypeError /\ 3 <= length lp /\ 3 <= length hp)).
Proof.
  intros run. subst run. cbv beta. unfold elevation. cbn [mbind result_bind].
  split_and!.
  - intros rng Hlen.
    destruct rng as [|a [|b [|c rng]]]; cbn in Hlen; try lia; reflexivity.
  - reflexivity.
  - intros a b. split_and!.
    + destruct lp as [|l0 [|l1 [|l2 [|l3 ls]]]]; cbn;
        try (split; [discriminate | lia]);
        destruct hp as [|h0 [|h1 [|h2 [|h3 hs]]]]; cbn;
        try (split; [discriminate | lia]).
      all: split; [lia | reflexivity].
    + intros e.
      destruct lp as [|l0 [|l1 [|l2 [|l3 ls]]]]; cbn; try (now intros [= <-]);
        destruct hp as [|h0 [|h1 [|h2 [|h3 hs]]]]; cbn; try (now intros [= <-]).
    + intros l0 l1 l2 h0 h1 h2 -> ->. destruct set_active; reflexivity.
  - destruct lp as [|l0 [|l1 [|l2 [|l3 ls]]]]; cbn;
      try (split; [discriminate | lia]);
      destruct hp as [|h0 [|h1 [|h2 [|h3 hs]]]]; cbn;
      try (split; [discriminate | lia]).
    all: split; [lia | reflexivity].
  - intros e.
    destruct lp as [|l0 [|l1 [|l2 [|l3 ls]]]]; cbn;
      try (intros [= <-]; left; split; [reflexivity | lia]);
      destruct hp as [|h0 [|h1 [|h2 [|h3 hs]]]]; cbn;
      try (intros [= <-]; left; split; [reflexivity | lia]);
      try (intros [= <-]; right; split; [reflexivity | lia]).
    all: discriminate.
Qed.

End Elevation.

(** ** Contour *)

Section ContourOutcomes.

Context `{K : VtkKernel}.

(** X14.  The outcomes of [contour], in the order the code decides them.
    The target field is that of the active scalar when no name is given
    (the preference then plays no part), and that of the array the name
    resolves to otherwise.  [contour] returns exactly when the dataset has
    an array, the target field is the point field and the isosurfaces are
    a count or a list.  With an array present, any other target, a name
    that resolves to nothing included, raises the 'only works on Point
    data' error; a list of values is passed to the kernel as it is, a
    count with the data range of the scalars. *)
Theorem contour_outcomes (dataset : Dataset) (isosurfaces : isosurfaces_arg)
    (scalars : option string)
    (compute_normals compute_gradients compute_scalars : bool) (preference : field) :
  let target :=
    match scalars with
    | None => Some (fst (active_scalar_info dataset))
    | Some _ => snd <$> get_scalar dataset scalars preference
    end in
  let name := scalars_or_active dataset scalars in
  let run := contour dataset isosurfaces scalars compute_normals compute_gradients
               compute_scalars preference in
  let output values :=
    _get_output
      {| GetInputDataObject := dataset;
         GetOutputDataObject :=
           vtkContourFilter (vtk_object dataset) compute_normals compute_gradients
             compute_scalars POINT_DATA_FIELD name values |}
      None POINT_DATA_FIELD in
  (is_ok run = true
   <-> 1 <= n_scalars dataset /\ target = Some POINT_DATA_FIELD
       /\ isosurfaces <> IsoOther)
  /\ (1 <= n_scalars dataset -> target <> Some POINT_DATA_FIELD ->
      run = Err (ContourNotPointData name))
  /\ (1 <= n_scalars dataset -> target = Some POINT_DATA_FIELD ->
      match isosurfaces with
      | IsoInt n =>
          run = Ok (output (GenerateValues n
                              (get_data_range dataset name CELL_DATA_FIELD)))
      | IsoIterable values => run = Ok (output (SetValues values))
      | IsoOther => run = Err IsosurfacesNotUnderstood
      end).
Proof.
  intros target name run output. subst target name run output. cbv beta.
  unfold contour.
  destruct (n_scalars dataset <? 1)%nat eqn:En;
    [apply Nat.ltb_lt in En | apply Nat.ltb_ge in En].
  { split_and!; [split; [discriminate | lia] | lia..]. }
  destruct scalars as [name|].
  - cbn [scalars_or_active].
    destruct (snd <$> get_scalar dataset (Some name) preference) as [[|]|].
    + split_and!.
      * destruct isosurfaces; cbn; split; try discriminate; intuition congruence.
      * congruence.
      * intros _ _. destruct isosurfaces; reflexivity.
    + split_and!; [split; [discriminate | intros (_ & [=] & _)] | reflexivity |
                   intros _ [=]].
    + split_and!; [split; [discriminate | intros (_ & [=] & _)] | reflexivity |
                   intros _ [=]].
  - unfold scalars_or_active.
    destruct (active_scalar_info dataset) as [[|] name]; cbn [fst snd].
    + split_and!.
      * destruct isosurfaces; cbn; split; try discriminate; intuition congruence.
      * congruence.
      * intros _ _. destruct isosurfaces; reflexivity.
    + split_and!; [split; [discriminate | intros (_ & [=] & _)] | reflexivity |
                   intros _ [=]].
Qed.

End ContourOutcomes.

(** ** Names of axes and names of normals *)

Section AxisNames.

Context `{K : VtkKernel}.

(** X15.  [slice_along_axis] takes the axis name as it is written: the
    only names it accepts are 'x', 'y' and 'z'.  A name that [slice] and
    [clip] would accept as a normal after lowercasing, an uppercase letter
    or a negative direction, is refused with 'Axis not understood',
    whatever the count, the tolerance and the dataset. *)
Theorem slice_along_axis_names (dataset : Dataset) (n : nat) (s : string)
    (tolerance : option float) (triangles : bool) :
  (is_Some (axes !! s) <-> s = "x" \/ s = "y" \/ s = "z")
  /\ (s <> "x" -> s <> "y" -> s <> "z" ->
      slice_along_axis dataset n (PyStr s) tolerance triangles
      = Err (AxisNotUnderstood s))
  /\ (is_Some (NORMALS !! lower s) -> s <> "x" -> s <> "y" -> s <> "z" ->
      usable_normal (PyStr s)
      /\ fails_with invalid_argument
           (slice_along_axis dataset n (PyStr s) tolerance triangles)).
Proof.
  assert (Hiff : is_Some (axes !! s) <-> s = "x" \/ s = "y" \/ s = "z").
  { split.
    - intros [k Hk]. apply axes_names in Hk. tauto.
    - intros [-> | [-> | ->]]; eexists; reflexivity. }
  assert (Herr : s <> "x" -> s <> "y" -> s <> "z" ->
                 slice_along_axis dataset n (PyStr s) tolerance triangles
                 = Err (AxisNotUnderstood s)).
  { intros Hx Hy Hz. unfold slice_along_axis.
    destruct (axes !! s) as [k|] eqn:E; [| reflexivity].
    apply axes_names in E. tauto. }
  split_and!; [exact Hiff | exact Herr |].
  intros Hn Hx Hy Hz. split; [exact Hn |].
  exists (AxisNotUnderstood s). split; [now apply Herr | reflexivity].
Qed.

End AxisNames.

(* ================================================================== *)
(** * The further properties on the sample dataset *)
(* ================================================================== *)

(** X1: a fourth component is ignored. *)
Lemma _generate_plane_reads_three_components_witness :
  _generate_plane (PySeq [Fin 1; Fin 0; Fin 0; Fin 9]) [Fin 5; Fin 2; Fin 0; Fin 7]
  = Ok {| GetNormal := (Fin 1, Fin 0, Fin 0); GetOrigin := (Fin 5, Fin 2, Fin 0) |}.
Proof.
  apply (proj1 (_generate_plane_reads_three_components _ _)).
  eexists _, _, _, _, _, _, _, _. split_and!; reflexivity.
Defined.

(** X2: an uppercase name and the default origin. *)
Lemma clip_succeeds_iff_witness :
  usable_normal (PyStr "X")
  /\ is_ok (@clip Sample.kernel Sample.box (PyStr "X") None true) = true.
Proof.
  assert (H : usable_normal (PyStr "X")) by (eexists; reflexivity).
  split; [exact H |].
  apply (proj2 (@clip_succeeds_iff Sample.kernel Sample.box (PyStr "X") None true)).
  split; [exact H | cbn; lia].
Defined.

(** X3: outside the box the bounds error comes before the TypeError of an
    integer normal. *)
Lemma slice_outcomes_witness :
  is_inside_bounds [Fin 11; Fin 2; Fin 0] (bounds Sample.box) = false
  /\ @slice Sample.kernel Sample.box (PyInt 0) (Some [Fin 11; Fin 2; Fin 0]) false
     = Err SliceOutsideBounds.
Proof.
  split; [reflexivity |].
  exact (proj1 (proj2 (@slice_outcomes Sample.kernel Sample.box (PyInt 0)
                         (Some [Fin 11; Fin 2; Fin 0]) false)) eq_refl eq_refl).
Defined.

(** X4: an x beyond the box. *)
Lemma slice_orthogonal_outcomes_witness :
  @slice_orthogonal Sample.kernel Sample.box (Some (Fin 20)) None None false
  = Err SliceOutsideBounds.
Proof.
  exact (proj2 (@slice_orthogonal_outcomes Sample.kernel Sample.box (Some (Fin 20))
                  None None false 0 10 0 4 (-1) 1 eq_refl) eq_refl).
Defined.


(** X6: no slices along the numeric axis 0. *)
Lemma slice_along_axis_small_counts_witness :
  @slice_along_axis Sample.kernel Sample.box 0 (PyInt 0) None false = Ok ∅.
Proof.
  exact (proj1 (@slice_along_axis_small_counts Sample.kernel Sample.box (PyInt 0) 0
                  false 0 10 0 4 (-1) 1 0 10 (or_introl eq_refl) eq_refl eq_refl
                  eq_refl)).
Defined.

(** X8: a plain range of three values. *)
Lemma threshold_range_length_witness :
  @threshold Sample.kernel Sample.box (ValueIterable [Fin 1; Fin 2; Fin 3]) None
    false false CELL_DATA_FIELD
  = Err (BadValueRange [Fin 1; Fin 2; Fin 3]).
Proof.
  apply (proj1 (@threshold_range_length Sample.kernel Sample.box None false
                  CELL_DATA_FIELD _ _ eq_refl)).
  cbn. lia.
Defined.

(** X9: the box without arrays. *)
Lemma threshold_failures_witness :
  get_scalar Sample.empty_box None CELL_DATA_FIELD = None
  /\ @threshold Sample.kernel Sample.empty_box (ValueScalar (Fin 1)) None false false
       CELL_DATA_FIELD
     = Err NoArraysToThreshold.
Proof.
  split; [reflexivity |].
  exact (proj2 (proj1 (@threshold_failures Sample.kernel Sample.empty_box
                         (ValueScalar (Fin 1)) None false false CELL_DATA_FIELD))
           eq_refl).
Defined.

(** X10: fifty per cent. *)
Lemma threshold_percent_reads_per_cent_witness :
  _check_percent (Fin 50) = Ok (Fin (50 / 100))
  /\ _check_percent (Fin (50 / 100)) = Ok (Fin (50 / 100)).
Proof.
  assert (H : (1 <= 50 < 100)%Q) by (split; Qcompare).
  pose proof (@threshold_percent_reads_per_cent Sample.kernel 50%Q H)
    as (H1 & H2 & _).
  split; [exact H1 | exact H2].
Defined.

(** X11: half of the range [0, 10] of the box. *)
Lemma threshold_percent_value_from_range_witness :
  get_data_range Sample.box (Some "values") CELL_DATA_FIELD = (Fin 0, Fin 10)
  /\ _get_val (Fin 50) (Fin 0) (Fin 10)
     = Ok (Fin 0 + Fin (normalized 50) * (Fin 10 - Fin 0))%float.
Proof.
  split; [reflexivity |].
  exact (proj1 (@threshold_percent_value_from_range Sample.kernel Sample.box
                  50 75 0 10 None false false CELL_DATA_FIELD eq_refl
                  ltac:(Qcompare) ltac:(split; Qcompare) ltac:(split; Qcompare))).
Defined.

(** X12: the defaults on the box. *)
Lemma elevation_defaults_witness :
  @elevation Sample.kernel Sample.box None None RangeNone POINT_DATA_FIELD true
  = Ok (set_active_scalar
          {| vtk_object :=
               @vtkElevationFilter Sample.kernel (vtk_object Sample.box)
                 (Fin (-1), Fin 1)
                 (Fin ((0 + 10) / 2), Fin ((0 + 4) / 2), Fin (-1))
                 (Fin ((0 + 10) / 2), Fin ((0 + 4) / 2), Fin 1);
             _active_scalar_info := active_scalar_info Sample.box |}
          "Elevation" POINT_DATA_FIELD).
Proof.
  exact (@elevation_defaults Sample.kernel Sample.box None None POINT_DATA_FIELD
           true 0 10 0 4 (-1) 1 _ _ _ _ _ _ eq_refl eq_refl eq_refl).
Defined.

(** X13: a range of one number. *)
Lemma elevation_scalar_range_witness :
  @elevation Sample.kernel Sample.box (Some [Fin 0; Fin 0; Fin 0])
    (Some [Fin 0; Fin 0; Fin 1]) (RangeIterable [Fin 1]) POINT_DATA_FIELD true
  = Err ScalarRangeLength.
Proof.
  apply (proj1 (@elevation_scalar_range Sample.kernel Sample.box
                  [Fin 0; Fin 0; Fin 0] [Fin 0; Fin 0; Fin 1]
                  POINT_DATA_FIELD true)).
  cbn. lia.
Defined.

(** X14: two levels of the point array of the box. *)
Lemma contour_outcomes_witness :
  is_ok (@contour Sample.kernel Sample.box (IsoIterable [Fin 1; Fin 2])
           (Some "height") false false true POINT_DATA_FIELD) = true.
Proof.
  apply (proj1 (@contour_outcomes Sample.kernel Sample.box
                  (IsoIterable [Fin 1; Fin 2]) (Some "height") false false true
                  POINT_DATA_FIELD)).
  split_and!; [cbn; lia | reflexivity | discriminate].
Defined.

(** X15: the name 'X'. *)
Lemma slice_along_axis_names_witness :
  @slice_along_axis Sample.kernel Sample.box 5 (PyStr "X") None false
  = Err (AxisNotUnderstood "X").
Proof.
  apply (proj1 (proj2 (@slice_along_axis_names Sample.kernel Sample.box 5 "X" None
                         false))); discriminate.
Defined.
